(** * Healthify: the patient / work-item store and the screens that write to it

    A shallow embedding of the SQLite schema created by [initializeDatabase]
    (database.ts) and of the handlers of the screens that read and write it:
    addpatient, editpatient, reviewpatients, reviewoldpatients, addtasks,
    edittask, viewtasks and pendingtasks.

    Conventions of the model.
    - A JavaScript string is a [string]; one [ascii] stands for one code unit
      in the range 0..255.  White space is the part of ECMAScript's
      WhiteSpace and LineTerminator sets that lies in that range.
    - A nullable TEXT column is an [option string], a nullable INTEGER column
      an [option Z]; a NOT NULL column holds its value directly.
    - The database handle is a state: the five tables, the AUTOINCREMENT
      counters, and the snapshot taken by BEGIN TRANSACTION while a
      transaction is open.
    - Every call on the handle ([runAsync], [getFirstAsync], [getAllAsync])
      may throw.  It throws when SQLite rejects the statement (a CHECK or
      UNIQUE constraint, a misplaced BEGIN/COMMIT/ROLLBACK) and when the
      environment makes it fail; the latter is read from a schedule of
      booleans, one per call, in call order.
    - What a handler shows to the user ([Alert.alert], [setError]) is
      appended to a log.  Spinner flags, navigation, console output and the
      clearing of text inputs are not part of the model. *)

From Stdlib Require Import List String Ascii ZArith Bool Lia Arith.
Import ListNotations.
Local Open Scope string_scope.
Local Open Scope Z_scope.

(* ================================================================= *)
(** ** JavaScript strings *)

Module Js.

(** Code units 9..13, 32 and 160: the white space that [trim] and
    [parseInt] skip. *)
Definition is_ws (c : ascii) : bool :=
  let n := nat_of_ascii c in
  ((9 <=? n)%nat && (n <=? 13)%nat) || (n =? 32)%nat || (n =? 160)%nat.

Fixpoint trimStart (s : string) : string :=
  match s with
  | EmptyString => EmptyString
  | String c s' => if is_ws c then trimStart s' else s
  end.

Fixpoint trimEnd (s : string) : string :=
  match s with
  | EmptyString => EmptyString
  | String c s' =>
      match trimEnd s' with
      | EmptyString => if is_ws c then EmptyString else String c EmptyString
      | t => String c t
      end
  end.

(** [s.trim()] *)
Definition trim (s : string) : string := trimEnd (trimStart s).

(** [!s] for a string [s]: only the empty string is falsy. *)
Definition falsy (s : string) : bool := (s =? "")%string.

(** [!s.trim()] *)
Definition blank (s : string) : bool := falsy (trim s).

Definition digit_of (c : ascii) : option Z :=
  let n := nat_of_ascii c in
  if ((48 <=? n)%nat && (n <=? 57)%nat)%bool
  then Some (Z.of_nat n - 48) else None.

(** The longest prefix of decimal digits, most significant first. *)
Fixpoint take_digits (s : string) : list Z :=
  match s with
  | EmptyString => []
  | String c s' =>
      match digit_of c with
      | Some d => d :: take_digits s'
      | None => []
      end
  end.

Definition digits_value (ds : list Z) : Z :=
  fold_left (fun acc d => 10 * acc + d) ds 0.

(** [parseInt(s, 10)]; [None] is NaN.  Leading white space is skipped, one
    sign is accepted, then the longest run of digits is read and whatever
    follows is ignored.  The value is the exact integer; JavaScript rounds
    it beyond 2^53, which does not change its sign. *)
Definition parseInt (s : string) : option Z :=
  let t := trimStart s in
  let '(sign, rest) :=
    match t with
    | String "-" r => (-1, r)
    | String "+" r => (1, r)
    | _ => (1, t)
    end in
  match take_digits rest with
  | [] => None
  | ds => Some (sign * digits_value ds)
  end.

(** [isNaN(n) || n <= 0] on the result of [parseInt]. *)
Definition nan_or_nonpositive (n : option Z) : bool :=
  match n with
  | None => true
  | Some v => v <=? 0
  end.

Definition lower_char (c : ascii) : ascii :=
  let n := nat_of_ascii c in
  if ((65 <=? n)%nat && (n <=? 90)%nat)
     || ((192 <=? n)%nat && (n <=? 222)%nat && negb (n =? 215)%nat)
  then ascii_of_nat (n + 32) else c.

Fixpoint toLowerCase (s : string) : string :=
  match s with
  | EmptyString => EmptyString
  | String c s' => String (lower_char c) (toLowerCase s')
  end.

Fixpoint startsWith (p s : string) : bool :=
  match p, s with
  | EmptyString, _ => true
  | String a p', String b s' => Ascii.eqb a b && startsWith p' s'
  | String _ _, EmptyString => false
  end.

(** [s.includes(q)] *)
Fixpoint includes (s q : string) : bool :=
  startsWith q s ||
  match s with
  | EmptyString => false
  | String _ s' => includes s' q
  end.

(** [xs.includes(x)] on an array of strings. *)
Definition array_includes (xs : list string) (x : string) : bool :=
  existsb (String.eqb x) xs.

End Js.

(* ================================================================= *)
(** ** The schema of database.ts *)

Module Schema.

Definition GENDERS : list string := ["Male"; "Female"; "Other"].
Definition LOCATIONS : list string :=
  ["Emergency"; "ICU"; "HDU"; "Ward Male"; "Ward Female"; "Other"].
Definition LAB_TYPES : list string := ["blood"; "urine"; "miscellanous"].
Definition IMAGING_TYPES : list string := ["X-RAY"; "CT"; "MRI"; "USG"].
Definition TASK_STATUSES : list string := ["unsent"; "sent"; "collected"].

(** [CHECK (col IN (...))] on a NOT NULL column. *)
Definition check_in (allowed : list string) (v : string) : bool :=
  Js.array_includes allowed v.

(** [CHECK (col IN (...))] on a nullable column: NULL passes. *)
Definition check_in_null (allowed : list string) (v : option string) : bool :=
  match v with
  | None => true
  | Some x => check_in allowed x
  end.

Record PatientRow := {
  p_id : Z;
  p_patientName : string;
  p_age : option Z;
  p_gender : string;
  p_registrationNumber : string;
  p_location : option string;
  p_bedNumber : option Z;
  p_chiefComplaints : option string;
  p_provisionalDiagnosis : option string;
  p_miscNotes : option string;
  p_reg_date : option string;
  p_contact : string;
  p_is_discharged : Z
}.

Record TaskRow := {
  t_id : Z;
  t_registrationNumber : string;
  t_lab_type : option string;
  t_lab_subtype : option string;
  t_date_and_time : option string;
  t_imaging_type : option string;
  t_imaging_subtype : option string;
  t_task_status : option string
}.

(** [oldlabs] has the columns of [tasks] except [task_status]. *)
Record OldLabRow := {
  o_id : Z;
  o_registrationNumber : string;
  o_lab_type : option string;
  o_lab_subtype : option string;
  o_date_and_time : option string;
  o_imaging_type : option string;
  o_imaging_subtype : option string
}.

(** [consultations] and [oldconsultations] have the same columns. *)
Record ConsultRow := {
  c_id : Z;
  c_registrationNumber : string;
  c_consult : option string;
  c_date_and_time : option string;
  c_task_status : option string
}.

(** The tables and, per table, the largest rowid handed out so far
    (sqlite_sequence, kept because every id is AUTOINCREMENT). *)
Record Tables := {
  patients : list PatientRow;
  tasks : list TaskRow;
  oldlabs : list OldLabRow;
  consultations : list ConsultRow;
  oldconsultations : list ConsultRow;
  seq_patients : Z;
  seq_tasks : Z;
  seq_oldlabs : Z;
  seq_consultations : Z;
  seq_oldconsultations : Z
}.

(** The database file right after [initializeDatabase] ran on a new file. *)
Definition empty_tables : Tables :=
  {| patients := []; tasks := []; oldlabs := [];
     consultations := []; oldconsultations := [];
     seq_patients := 0; seq_tasks := 0; seq_oldlabs := 0;
     seq_consultations := 0; seq_oldconsultations := 0 |}.


End Schema.
Export Schema.

(* ================================================================= *)
(** ** The database handle (expo-sqlite) *)

Module Sqlite.

(** An open connection: the current content and, while a transaction is
    open, the content at its BEGIN. *)
Record Store := {
  cur : Tables;
  saved : option Tables
}.

(** The connection handed out by [getDatabase] after [initializeDatabase]
    created the tables in a new file. *)
Definition initial_store : Store :=
  {| cur := empty_tables; saved := None |}.

(** A statement either yields the next state or is rejected by SQLite. *)
Definition Statement := Store -> option Store.

Definition BEGIN_TRANSACTION : Statement := fun s =>
  match saved s with
  | Some _ => None
  | None => Some {| cur := cur s; saved := Some (cur s) |}
  end.

Definition COMMIT : Statement := fun s =>
  match saved s with
  | None => None
  | Some _ => Some {| cur := cur s; saved := None |}
  end.

Definition ROLLBACK : Statement := fun s =>
  match saved s with
  | None => None
  | Some t => Some {| cur := t; saved := None |}
  end.

(** INSERT, UPDATE and DELETE act on the current content.  A statement
    that violates a constraint is undone as a whole and leaves an open
    transaction open. *)
Definition dml (f : Tables -> option Tables) : Statement := fun s =>
  match f (cur s) with
  | Some t => Some {| cur := t; saved := saved s |}
  | None => None
  end.

(** [col = ?] on a nullable column: NULL equals nothing. *)
Definition sql_eq (col : option string) (v : string) : bool :=
  match col with
  | Some x => (x =? v)%string
  | None => false
  end.

(** [col = ?] when the bound parameter may itself be missing. *)
Definition sql_eq_param (col param : option string) : bool :=
  match param with
  | Some v => sql_eq col v
  | None => false
  end.

(** [col IS NOT NULL] *)
Definition not_null {A} (col : option A) : bool :=
  match col with Some _ => true | None => false end.

Definition update_where {R} (p : R -> bool) (f : R -> R) (rows : list R)
  : list R :=
  map (fun r => if p r then f r else r) rows.

Definition delete_where {R} (p : R -> bool) (rows : list R) : list R :=
  filter (fun r => negb (p r)) rows.

Definition select_where {R} (p : R -> bool) (rows : list R) : list R :=
  filter p rows.

Fixpoint nodupb (l : list string) : bool :=
  match l with
  | [] => true
  | x :: l' => negb (existsb (String.eqb x) l') && nodupb l'
  end.

(** *** What the user sees *)

Inductive Event :=
| Alert (title message : string)
| SetError (e : option string).

(** *** Handlers: state, exceptions and the log *)

Record World := {
  store : Store;
  faults : list bool;
  ui : list Event
}.

Inductive Res (A : Type) :=
| Ok (a : A)
| Throw.
Arguments Ok {A} a.
Arguments Throw {A}.

Definition M (A : Type) := World -> Res A * World.

Definition ret {A} (a : A) : M A := fun w => (Ok a, w).

Definition bind {A B} (m : M A) (k : A -> M B) : M B := fun w =>
  match m w with
  | (Ok a, w') => k a w'
  | (Throw, w') => (Throw, w')
  end.

(** [throw new Error(...)] *)
Definition throw {A} : M A := fun w => (Throw, w).

(** [try { body } catch (err) { handler }] *)
Definition try_catch {A} (body handler : M A) : M A := fun w =>
  match body w with
  | (Ok a, w') => (Ok a, w')
  | (Throw, w') => handler w'
  end.

Definition emit (e : Event) : M unit := fun w =>
  (Ok tt, {| store := store w; faults := faults w; ui := ui w ++ [e] |}).

Definition alert (title message : string) : M unit :=
  emit (Alert title message).

Definition setError (e : option string) : M unit := emit (SetError e).

(** One call on the handle.  The head of the schedule says whether the
    environment fails this call; an exhausted schedule fails nothing. *)
Definition db_call {A} (f : Store -> option (A * Store)) : M A := fun w =>
  let rest := tl (faults w) in
  match faults w with
  | true :: _ =>
      (Throw, {| store := store w; faults := rest; ui := ui w |})
  | _ =>
      match f (store w) with
      | Some (a, s') => (Ok a, {| store := s'; faults := rest; ui := ui w |})
      | None => (Throw, {| store := store w; faults := rest; ui := ui w |})
      end
  end.

Definition runAsync (st : Statement) : M unit :=
  db_call (fun s => match st s with
                    | Some s' => Some (tt, s')
                    | None => None
                    end).

Definition getAllAsync {R} (q : Tables -> list R) : M (list R) :=
  db_call (fun s => Some (q (cur s), s)).

Definition getFirstAsync {R} (q : Tables -> list R) : M (option R) :=
  db_call (fun s => Some (hd_error (q (cur s)), s)).

(** Run a handler on a connection under a schedule; the result is the
    connection afterwards and what was shown. *)
Definition run (h : M unit) (fs : list bool) (s : Store) : Store * list Event :=
  let '(_, w) := h {| store := s; faults := fs; ui := [] |} in
  (store w, ui w).

End Sqlite.
Export Sqlite.

Declare Scope handler_scope.
Delimit Scope handler_scope with handler.
Notation "x <- m ;; k" := (bind m (fun x => k))
  (at level 61, m at next level, right associativity) : handler_scope.
Notation "m ;; k" := (bind m (fun _ => k))
  (at level 61, right associativity) : handler_scope.
Local Open Scope handler_scope.

(* ================================================================= *)
(** ** Writing one table of [Tables] *)

Module Upd.

Definition with_patients (t : Tables) (rows : list PatientRow) : Tables :=
  {| patients := rows; tasks := tasks t; oldlabs := oldlabs t;
     consultations := consultations t; oldconsultations := oldconsultations t;
     seq_patients := seq_patients t; seq_tasks := seq_tasks t;
     seq_oldlabs := seq_oldlabs t; seq_consultations := seq_consultations t;
     seq_oldconsultations := seq_oldconsultations t |}.

Definition with_tasks (t : Tables) (rows : list TaskRow) : Tables :=
  {| patients := patients t; tasks := rows; oldlabs := oldlabs t;
     consultations := consultations t; oldconsultations := oldconsultations t;
     seq_patients := seq_patients t; seq_tasks := seq_tasks t;
     seq_oldlabs := seq_oldlabs t; seq_consultations := seq_consultations t;
     seq_oldconsultations := seq_oldconsultations t |}.

Definition with_oldlabs (t : Tables) (rows : list OldLabRow) : Tables :=
  {| patients := patients t; tasks := tasks t; oldlabs := rows;
     consultations := consultations t; oldconsultations := oldconsultations t;
     seq_patients := seq_patients t; seq_tasks := seq_tasks t;
     seq_oldlabs := seq_oldlabs t; seq_consultations := seq_consultations t;
     seq_oldconsultations := seq_oldconsultations t |}.

Definition with_consultations (t : Tables) (rows : list ConsultRow) : Tables :=
  {| patients := patients t; tasks := tasks t; oldlabs := oldlabs t;
     consultations := rows; oldconsultations := oldconsultations t;
     seq_patients := seq_patients t; seq_tasks := seq_tasks t;
     seq_oldlabs := seq_oldlabs t; seq_consultations := seq_consultations t;
     seq_oldconsultations := seq_oldconsultations t |}.

Definition with_oldconsultations (t : Tables) (rows : list ConsultRow)
  : Tables :=
  {| patients := patients t; tasks := tasks t; oldlabs := oldlabs t;
     consultations := consultations t; oldconsultations := rows;
     seq_patients := seq_patients t; seq_tasks := seq_tasks t;
     seq_oldlabs := seq_oldlabs t; seq_consultations := seq_consultations t;
     seq_oldconsultations := seq_oldconsultations t |}.

(** Appending a row with a new AUTOINCREMENT id. *)
Definition insert_patient (t : Tables) (mk : Z -> PatientRow) : Tables :=
  let id := seq_patients t + 1 in
  {| patients := patients t ++ [mk id]; tasks := tasks t; oldlabs := oldlabs t;
     consultations := consultations t; oldconsultations := oldconsultations t;
     seq_patients := id; seq_tasks := seq_tasks t;
     seq_oldlabs := seq_oldlabs t; seq_consultations := seq_consultations t;
     seq_oldconsultations := seq_oldconsultations t |}.

Definition insert_task (t : Tables) (mk : Z -> TaskRow) : Tables :=
  let id := seq_tasks t + 1 in
  {| patients := patients t; tasks := tasks t ++ [mk id]; oldlabs := oldlabs t;
     consultations := consultations t; oldconsultations := oldconsultations t;
     seq_patients := seq_patients t; seq_tasks := id;
     seq_oldlabs := seq_oldlabs t; seq_consultations := seq_consultations t;
     seq_oldconsultations := seq_oldconsultations t |}.

Definition insert_oldlab (t : Tables) (mk : Z -> OldLabRow) : Tables :=
  let id := seq_oldlabs t + 1 in
  {| patients := patients t; tasks := tasks t; oldlabs := oldlabs t ++ [mk id];
     consultations := consultations t; oldconsultations := oldconsultations t;
     seq_patients := seq_patients t; seq_tasks := seq_tasks t;
     seq_oldlabs := id; seq_consultations := seq_consultations t;
     seq_oldconsultations := seq_oldconsultations t |}.

Definition insert_consultation (t : Tables) (mk : Z -> ConsultRow) : Tables :=
  let id := seq_consultations t + 1 in
  {| patients := patients t; tasks := tasks t; oldlabs := oldlabs t;
     consultations := consultations t ++ [mk id];
     oldconsultations := oldconsultations t;
     seq_patients := seq_patients t; seq_tasks := seq_tasks t;
     seq_oldlabs := seq_oldlabs t; seq_consultations := id;
     seq_oldconsultations := seq_oldconsultations t |}.

Definition insert_oldconsultation (t : Tables) (mk : Z -> ConsultRow)
  : Tables :=
  let id := seq_oldconsultations t + 1 in
  {| patients := patients t; tasks := tasks t; oldlabs := oldlabs t;
     consultations := consultations t;
     oldconsultations := oldconsultations t ++ [mk id];
     seq_patients := seq_patients t; seq_tasks := seq_tasks t;
     seq_oldlabs := seq_oldlabs t; seq_consultations := seq_consultations t;
     seq_oldconsultations := id |}.

(** Column setters used by the SET clauses. *)
Definition task_set_registrationNumber (v : string) (r : TaskRow) : TaskRow :=
  {| t_id := t_id r; t_registrationNumber := v;
     t_lab_type := t_lab_type r; t_lab_subtype := t_lab_subtype r;
     t_date_and_time := t_date_and_time r;
     t_imaging_type := t_imaging_type r;
     t_imaging_subtype := t_imaging_subtype r;
     t_task_status := t_task_status r |}.

Definition task_set_task_status (v : string) (r : TaskRow) : TaskRow :=
  {| t_id := t_id r; t_registrationNumber := t_registrationNumber r;
     t_lab_type := t_lab_type r; t_lab_subtype := t_lab_subtype r;
     t_date_and_time := t_date_and_time r;
     t_imaging_type := t_imaging_type r;
     t_imaging_subtype := t_imaging_subtype r;
     t_task_status := Some v |}.

Definition task_set_lab_subtype (v : string) (r : TaskRow) : TaskRow :=
  {| t_id := t_id r; t_registrationNumber := t_registrationNumber r;
     t_lab_type := t_lab_type r; t_lab_subtype := Some v;
     t_date_and_time := t_date_and_time r;
     t_imaging_type := t_imaging_type r;
     t_imaging_subtype := t_imaging_subtype r;
     t_task_status := t_task_status r |}.

Definition task_set_imaging_subtype (v : string) (r : TaskRow) : TaskRow :=
  {| t_id := t_id r; t_registrationNumber := t_registrationNumber r;
     t_lab_type := t_lab_type r; t_lab_subtype := t_lab_subtype r;
     t_date_and_time := t_date_and_time r;
     t_imaging_type := t_imaging_type r;
     t_imaging_subtype := Some v;
     t_task_status := t_task_status r |}.

Definition oldlab_set_registrationNumber (v : string) (r : OldLabRow)
  : OldLabRow :=
  {| o_id := o_id r; o_registrationNumber := v;
     o_lab_type := o_lab_type r; o_lab_subtype := o_lab_subtype r;
     o_date_and_time := o_date_and_time r;
     o_imaging_type := o_imaging_type r;
     o_imaging_subtype := o_imaging_subtype r |}.

Definition oldlab_set_lab_subtype (v : string) (r : OldLabRow) : OldLabRow :=
  {| o_id := o_id r; o_registrationNumber := o_registrationNumber r;
     o_lab_type := o_lab_type r; o_lab_subtype := Some v;
     o_date_and_time := o_date_and_time r;
     o_imaging_type := o_imaging_type r;
     o_imaging_subtype := o_imaging_subtype r |}.

Definition oldlab_set_imaging_subtype (v : string) (r : OldLabRow)
  : OldLabRow :=
  {| o_id := o_id r; o_registrationNumber := o_registrationNumber r;
     o_lab_type := o_lab_type r; o_lab_subtype := o_lab_subtype r;
     o_date_and_time := o_date_and_time r;
     o_imaging_type := o_imaging_type r;
     o_imaging_subtype := Some v |}.

Definition consult_set_task_status (v : string) (r : ConsultRow)
  : ConsultRow :=
  {| c_id := c_id r; c_registrationNumber := c_registrationNumber r;
     c_consult := c_consult r; c_date_and_time := c_date_and_time r;
     c_task_status := Some v |}.

Definition patient_set_is_discharged (v : Z) (r : PatientRow) : PatientRow :=
  {| p_id := p_id r; p_patientName := p_patientName r; p_age := p_age r;
     p_gender := p_gender r; p_registrationNumber := p_registrationNumber r;
     p_location := p_location r; p_bedNumber := p_bedNumber r;
     p_chiefComplaints := p_chiefComplaints r;
     p_provisionalDiagnosis := p_provisionalDiagnosis r;
     p_miscNotes := p_miscNotes r; p_reg_date := p_reg_date r;
     p_contact := p_contact r; p_is_discharged := v |}.

End Upd.
Export Upd.

(* ================================================================= *)
(** ** addpatient: [handleSubmit] *)

Module AddPatient.

(** The text inputs and pickers of the screen. *)
Record Form := {
  registrationNumber : string;
  patientName : string;
  age : string;
  gender : string;
  location : string;
  bedNumber : string;
  chiefComplaints : string;
  provisionalDiagnosis : string;
  miscNotes : string;
  number : string
}.

(** [SELECT id, registrationNumber FROM patients WHERE registrationNumber = ?] *)
Definition SELECT_patient_by_key (key : string) (t : Tables)
  : list PatientRow :=
  select_where (fun r => (p_registrationNumber r =? key)%string) (patients t).

(** [INSERT INTO patients (patientName, age, gender, registrationNumber,
    location, bedNumber, chiefComplaints, provisionalDiagnosis, miscNotes,
    contact) VALUES (...)]: [reg_date] and [is_discharged] take their
    defaults; the CHECKs on gender and location and the UNIQUE key apply. *)
Definition INSERT_patient (name : string) (parsedAge : Z)
    (gender key location : string) (parsedBedNumber : Z)
    (complaints diagnosis notes contact today : string) (t : Tables)
  : option Tables :=
  if check_in GENDERS gender
     && check_in LOCATIONS location
     && negb (existsb (fun r => (p_registrationNumber r =? key)%string)
                      (patients t))
  then Some (insert_patient t (fun id =>
         {| p_id := id; p_patientName := name; p_age := Some parsedAge;
            p_gender := gender; p_registrationNumber := key;
            p_location := Some location; p_bedNumber := Some parsedBedNumber;
            p_chiefComplaints := Some complaints;
            p_provisionalDiagnosis := Some diagnosis;
            p_miscNotes := Some notes; p_reg_date := Some today;
            p_contact := contact; p_is_discharged := 0 |}))
  else None.

(** The first test of the handler: some required input is blank. *)
Definition some_required_blank (f : Form) : bool :=
  Js.blank (registrationNumber f)
  || Js.blank (patientName f)
  || Js.blank (age f)
  || Js.blank (bedNumber f)
  || Js.blank (chiefComplaints f)
  || Js.blank (provisionalDiagnosis f)
  || Js.blank (number f).

(** [db] says whether the context holds a handle; [today] is what
    [date('now')] yields when the row is inserted. *)
Definition handleSubmit (db : bool) (today : string) (f : Form) : M unit :=
  if negb db then alert "Error" "Database is not initialized yet."
  else if some_required_blank f then alert "Error" "All fields are required!"
  else
    let parsedAge := Js.parseInt (age f) in
    let parsedBedNumber := Js.parseInt (bedNumber f) in
    if Js.nan_or_nonpositive parsedAge
    then alert "Error" "Please enter a valid positive age."
    else if Js.nan_or_nonpositive parsedBedNumber
    then alert "Error" "Please enter a valid positive bed number."
    else
      try_catch
        (existingPatient <-
           getFirstAsync (SELECT_patient_by_key (Js.trim (registrationNumber f))) ;;
         match existingPatient with
         | Some _ =>
             alert "Error"
               ("Patient with registration number '" ++ registrationNumber f
                ++ "' already exists.")
         | None =>
             runAsync (dml (INSERT_patient
               (Js.trim (patientName f))
               (match parsedAge with Some a => a | None => 0 end)
               (gender f)
               (Js.trim (registrationNumber f))
               (location f)
               (match parsedBedNumber with Some b => b | None => 0 end)
               (Js.trim (chiefComplaints f))
               (Js.trim (provisionalDiagnosis f))
               (Js.trim (miscNotes f))
               (Js.trim (number f))
               today)) ;;
             alert "Success" "Patient added successfully!"
         end)
        (alert "Error" "Failed to add patient. Please try again.").

End AddPatient.

(* ================================================================= *)
(** ** editpatient: [checkRegistrationNumberExists] and [handleUpdate] *)

Module EditPatient.

(** The [Patient] interface of the screen; [age = None] is NaN. *)
Record Patient := {
  patientName : string;
  age : option Z;
  gender : string;
  registrationNumber : string;
  location : string;
  bedNumber : option Z;
  chiefComplaints : option string;
  provisionalDiagnosis : option string;
  miscNotes : option string;
  reg_date : string;
  contact : string
}.

(** [n || null] for an optional number: undefined and 0 become NULL. *)
Definition num_or_null (n : option Z) : option Z :=
  match n with
  | Some 0 => None
  | _ => n
  end.

(** [s || null] for an optional string: undefined and "" become NULL. *)
Definition str_or_null (s : option string) : option string :=
  match s with
  | Some x => if Js.falsy x then None else Some x
  | None => None
  end.

(** [SELECT * FROM patients WHERE registrationNumber = ?] *)
Definition SELECT_patient (key : string) (t : Tables) : list PatientRow :=
  select_where (fun r => (p_registrationNumber r =? key)%string) (patients t).

(** [SELECT * FROM patients WHERE registrationNumber = ? AND
    registrationNumber != ?] *)
Definition SELECT_other_patient (regNumber original : string) (t : Tables)
  : list PatientRow :=
  select_where
    (fun r => (p_registrationNumber r =? regNumber)%string
              && negb (p_registrationNumber r =? original)%string)
    (patients t).

Definition set_columns (p : Patient) (r : PatientRow) : PatientRow :=
  {| p_id := p_id r;
     p_patientName := patientName p;
     p_age := age p;
     p_gender := gender p;
     p_registrationNumber := registrationNumber p;
     p_location := Some (location p);
     p_bedNumber := num_or_null (bedNumber p);
     p_chiefComplaints := str_or_null (chiefComplaints p);
     p_provisionalDiagnosis := str_or_null (provisionalDiagnosis p);
     p_miscNotes := str_or_null (miscNotes p);
     p_reg_date := p_reg_date r;
     p_contact := contact p;
     p_is_discharged := p_is_discharged r |}.

(** [UPDATE patients SET patientName = ?, age = ?, gender = ?,
    registrationNumber = ?, location = ?, bedNumber = ?, chiefComplaints = ?,
    provisionalDiagnosis = ?, miscNotes = ?, contact = ?
    WHERE registrationNumber = ?].  The constraints are evaluated on the
    rows the statement writes: with no matching row nothing is checked. *)
Definition UPDATE_patient (p : Patient) (original : string) (t : Tables)
  : option Tables :=
  let hit r := (p_registrationNumber r =? original)%string in
  let rows := update_where hit (set_columns p) (patients t) in
  if negb (existsb hit (patients t)) then Some t
  else if check_in GENDERS (gender p)
          && check_in LOCATIONS (location p)
          && nodupb (map p_registrationNumber rows)
  then Some (with_patients t rows)
  else None.

(** [UPDATE tasks SET registrationNumber = ? WHERE registrationNumber = ?] *)
Definition UPDATE_tasks_key (newKey oldKey : string) (t : Tables)
  : option Tables :=
  Some (with_tasks t
    (update_where (fun r => (t_registrationNumber r =? oldKey)%string)
                  (task_set_registrationNumber newKey) (tasks t))).

(** [UPDATE oldlabs SET registrationNumber = ? WHERE registrationNumber = ?] *)
Definition UPDATE_oldlabs_key (newKey oldKey : string) (t : Tables)
  : option Tables :=
  Some (with_oldlabs t
    (update_where (fun r => (o_registrationNumber r =? oldKey)%string)
                  (oldlab_set_registrationNumber newKey) (oldlabs t))).

(** [fetchPatientDetails]: what the screen loads into its form. *)
Definition fetchPatientDetails (original : string) : M (option PatientRow) :=
  try_catch
    (fetched <- getFirstAsync (SELECT_patient original) ;;
     setError None ;;
     ret fetched)
    (setError (Some "Failed to load patient details.") ;; ret None).

Definition checkRegistrationNumberExists (original regNumber : string)
  : M bool :=
  try_catch
    (existingPatient <- getFirstAsync (SELECT_other_patient regNumber original) ;;
     ret (match existingPatient with Some _ => true | None => false end))
    (ret true).

(** The statements between BEGIN TRANSACTION and COMMIT, and what follows
    a successful COMMIT. *)
Definition transaction (original : string) (p : Patient)
    (regNumberChanged : bool) : M unit :=
  runAsync BEGIN_TRANSACTION ;;
  runAsync (dml (UPDATE_patient p original)) ;;
  (if regNumberChanged then
     runAsync (dml (UPDATE_tasks_key (registrationNumber p) original)) ;;
     runAsync (dml (UPDATE_oldlabs_key (registrationNumber p) original))
   else ret tt) ;;
  runAsync COMMIT ;;
  setError None ;;
  alert "Success" "Patient details updated successfully.".

Definition handleUpdate (original : string) (patient : option Patient)
  : M unit :=
  match patient with
  | None => ret tt
  | Some p =>
      if Js.blank (patientName p)
      then setError (Some "Patient name is required.")
      else if Js.nan_or_nonpositive (age p)
      then setError (Some "Please enter a valid age.")
      else if Js.blank (registrationNumber p)
      then setError (Some "Registration number is required.")
      else if Js.blank (location p)
      then setError (Some "Location is required.")
      else if Js.blank (contact p)
      then setError (Some "Contact information is required.")
      else
        try_catch
          (let regNumberChanged :=
             negb (registrationNumber p =? original)%string in
           if regNumberChanged then
             exists_ <- checkRegistrationNumberExists original
                          (registrationNumber p) ;;
             if exists_ : bool
             then setError (Some "Registration number already exists.")
             else transaction original p regNumberChanged
           else transaction original p regNumberChanged)
          (setError (Some "Failed to update patient details.") ;;
           try_catch (runAsync ROLLBACK) (ret tt))
  end.

End EditPatient.

(* ================================================================= *)
(** ** reviewpatients and reviewoldpatients: [discharge] and [reAdmit] *)

Module ReviewPatients.

(** [UPDATE patients SET is_discharged = ? WHERE registrationNumber = ?]
    with the constant 0 or 1 of the two screens. *)
Definition UPDATE_is_discharged (v : Z) (key : string) (t : Tables)
  : option Tables :=
  Some (with_patients t
    (update_where (fun r => (p_registrationNumber r =? key)%string)
                  (patient_set_is_discharged v) (patients t))).

(** [SELECT * FROM patients WHERE is_discharged = ?], before ORDER BY. *)
Definition SELECT_by_discharged (v : Z) (t : Tables) : list PatientRow :=
  select_where (fun r => p_is_discharged r =? v) (patients t).

(** [fetchPatients] of either screen, as far as the log shows it. *)
Definition fetchPatients (v : Z) : M unit :=
  try_catch
    (_ <- getAllAsync (SELECT_by_discharged v) ;; setError None)
    (setError (Some (if v =? 0 then "Failed to load patients."
                     else "Failed to load discharged patients."))).

(** reviewpatients *)
Definition discharge (registrationNumber : string) : M unit :=
  try_catch
    (runAsync (dml (UPDATE_is_discharged 1 registrationNumber)) ;;
     setError None ;;
     alert "Success" "Patient discharged successfully." ;;
     fetchPatients 0)
    (setError (Some "Failed to discharge patient.")).

(** reviewoldpatients *)
Definition reAdmit (registrationNumber : string) : M unit :=
  try_catch
    (runAsync (dml (UPDATE_is_discharged 0 registrationNumber)) ;;
     setError None ;;
     alert "Success" "Patient re-admitted successfully." ;;
     fetchPatients 1)
    (setError (Some "Failed to re-admit patient.")).

(** [handleEditDetails] and [handleViewTasks] of either screen: the
    registration number handed to the next screen as its route
    parameter. *)
Definition handleEditDetails (registrationNumber : string) : string :=
  Js.trim registrationNumber.

Definition handleViewTasks (registrationNumber patientName : string)
  : string * string :=
  (Js.trim registrationNumber, Js.trim patientName).

(** [handleSearch] of either screen: the list shown after a search over
    the fetched [patients]. *)
Definition matches (query : string) (r : PatientRow) : bool :=
  Js.includes (Js.toLowerCase (p_patientName r)) query
  || Js.includes (Js.toLowerCase (p_registrationNumber r)) query.

Definition handleSearch (searchQuery : string) (fetched : list PatientRow)
  : list PatientRow :=
  if Js.blank searchQuery then fetched
  else filter (matches (Js.toLowerCase searchQuery)) fetched.

(** [locationCounts] of reviewpatients: one pass over the fetched
    patients, adding 1 under the location of each.  The result is read at
    the six names of [LOCATIONS] only; what the loop leaves under any
    other key is not part of the model. *)
Definition bump (counts : string -> nat) (loc : option string)
  : string -> nat :=
  fun k => if sql_eq loc k then S (counts k) else counts k.

Definition locationCounts (fetched : list PatientRow) : string -> nat :=
  fold_left (fun counts r => bump counts (p_location r)) fetched
    (fun _ => 0%nat).

End ReviewPatients.

(* ================================================================= *)
(** ** addtasks: the six add handlers *)

Module AddTasks.

(** [INSERT INTO tasks (registrationNumber, lab_type, lab_subtype)
    VALUES (?, ?, ?)]; [now] is what [datetime('now')] yields. *)
Definition INSERT_task_lab (key labType labSubtype now : string) (t : Tables)
  : option Tables :=
  if check_in LAB_TYPES labType
  then Some (insert_task t (fun id =>
         {| t_id := id; t_registrationNumber := key;
            t_lab_type := Some labType; t_lab_subtype := Some labSubtype;
            t_date_and_time := Some now;
            t_imaging_type := None; t_imaging_subtype := None;
            t_task_status := Some "unsent" |}))
  else None.

(** [INSERT INTO tasks (registrationNumber, imaging_type, imaging_subtype)
    VALUES (?, ?, ?)] *)
Definition INSERT_task_imaging (key imagingType imagingSubtype now : string)
    (t : Tables) : option Tables :=
  if check_in IMAGING_TYPES imagingType
  then Some (insert_task t (fun id =>
         {| t_id := id; t_registrationNumber := key;
            t_lab_type := None; t_lab_subtype := None;
            t_date_and_time := Some now;
            t_imaging_type := Some imagingType;
            t_imaging_subtype := Some imagingSubtype;
            t_task_status := Some "unsent" |}))
  else None.

(** [INSERT INTO oldlabs (registrationNumber, lab_type, lab_subtype)
    VALUES (?, ?, ?)] *)
Definition INSERT_oldlab_lab (key labType labSubtype now : string)
    (t : Tables) : option Tables :=
  if check_in LAB_TYPES labType
  then Some (insert_oldlab t (fun id =>
         {| o_id := id; o_registrationNumber := key;
            o_lab_type := Some labType; o_lab_subtype := Some labSubtype;
            o_date_and_time := Some now;
            o_imaging_type := None; o_imaging_subtype := None |}))
  else None.

(** [INSERT INTO oldlabs (registrationNumber, imaging_type, imaging_subtype)
    VALUES (?, ?, ?)] *)
Definition INSERT_oldlab_imaging (key imagingType imagingSubtype now : string)
    (t : Tables) : option Tables :=
  if check_in IMAGING_TYPES imagingType
  then Some (insert_oldlab t (fun id =>
         {| o_id := id; o_registrationNumber := key;
            o_lab_type := None; o_lab_subtype := None;
            o_date_and_time := Some now;
            o_imaging_type := Some imagingType;
            o_imaging_subtype := Some imagingSubtype |}))
  else None.

Definition new_consult (key text now : string) (id : Z) : ConsultRow :=
  {| c_id := id; c_registrationNumber := key; c_consult := Some text;
     c_date_and_time := Some now; c_task_status := Some "unsent" |}.

(** [INSERT INTO consultations (registrationNumber, consult) VALUES (?, ?)] *)
Definition INSERT_consultation (key text now : string) (t : Tables)
  : option Tables :=
  Some (insert_consultation t (new_consult key text now)).

(** [INSERT INTO oldconsultations (registrationNumber, consult)
    VALUES (?, ?)] *)
Definition INSERT_oldconsultation (key text now : string) (t : Tables)
  : option Tables :=
  Some (insert_oldconsultation t (new_consult key text now)).

Definition same_consult (key text : string) (r : ConsultRow) : bool :=
  (c_registrationNumber r =? key)%string && sql_eq (c_consult r) text.

(** [SELECT id FROM consultations WHERE registrationNumber = ? AND
    consult = ?] *)
Definition SELECT_consultation (key text : string) (t : Tables)
  : list ConsultRow :=
  select_where (same_consult key text) (consultations t).

(** [SELECT id FROM oldconsultations WHERE registrationNumber = ? AND
    consult = ?] *)
Definition SELECT_oldconsultation (key text : string) (t : Tables)
  : list ConsultRow :=
  select_where (same_consult key text) (oldconsultations t).

(** The two guards every handler of the screen starts with. *)
Definition guarded (db isDbInitialized : bool) (registrationNumber : string)
    (k : M unit) : M unit :=
  if negb db || negb isDbInitialized
  then alert "Error" "Database is not initialized yet."
  else if Js.falsy registrationNumber
  then alert "Error" "No registration number found."
  else k.

Definition handleAddLab (db isDbInitialized : bool)
    (registrationNumber labType labSubtype now : string) : M unit :=
  guarded db isDbInitialized registrationNumber
    (if Js.blank labSubtype
     then alert "Error" "Lab subtype cannot be empty."
     else try_catch
       (runAsync (dml (INSERT_task_lab registrationNumber labType
                         (Js.trim labSubtype) now)) ;;
        alert "Success" "Lab task added successfully!")
       (alert "Error" "Failed to add lab task.")).

Definition handleAddOldLab (db isDbInitialized : bool)
    (registrationNumber labType labSubtype now : string) : M unit :=
  guarded db isDbInitialized registrationNumber
    (if Js.blank labSubtype
     then alert "Error" "Lab subtype cannot be empty."
     else try_catch
       (runAsync (dml (INSERT_oldlab_lab registrationNumber labType
                         (Js.trim labSubtype) now)) ;;
        alert "Success" "Old lab task added successfully!")
       (alert "Error" "Failed to add old lab task.")).

Definition handleAddImaging (db isDbInitialized : bool)
    (registrationNumber imagingType imagingSubtype now : string) : M unit :=
  guarded db isDbInitialized registrationNumber
    (if Js.blank imagingSubtype
     then alert "Error" "Imaging subtype cannot be empty."
     else try_catch
       (runAsync (dml (INSERT_task_imaging registrationNumber imagingType
                         (Js.trim imagingSubtype) now)) ;;
        alert "Success" "Imaging task added successfully!")
       (alert "Error" "Failed to add imaging task.")).

Definition handleAddOldImaging (db isDbInitialized : bool)
    (registrationNumber imagingType imagingSubtype now : string) : M unit :=
  guarded db isDbInitialized registrationNumber
    (if Js.blank imagingSubtype
     then alert "Error" "Imaging subtype cannot be empty."
     else try_catch
       (runAsync (dml (INSERT_oldlab_imaging registrationNumber imagingType
                         (Js.trim imagingSubtype) now)) ;;
        alert "Success" "Old imaging task added successfully!")
       (alert "Error" "Failed to add old imaging task.")).

(** The lookup of an existing row is made and its result is not used. *)
Definition handleAddConsultation (db isDbInitialized : bool)
    (registrationNumber consultationText now : string) : M unit :=
  guarded db isDbInitialized registrationNumber
    (if Js.blank consultationText
     then alert "Error" "Consultation text cannot be empty."
     else try_catch
       (_ <- getFirstAsync (SELECT_consultation (Js.trim registrationNumber)
                              (Js.trim consultationText)) ;;
        runAsync (dml (INSERT_consultation (Js.trim registrationNumber)
                         (Js.trim consultationText) now)) ;;
        alert "Success" "Consultation added successfully!")
       (alert "Error" "Failed to add consultation.")).

Definition handleAddOldConsultation (db isDbInitialized : bool)
    (registrationNumber consultationText now : string) : M unit :=
  guarded db isDbInitialized registrationNumber
    (if Js.blank consultationText
     then alert "Error" "Consultation text cannot be empty."
     else try_catch
       (existing <- getFirstAsync
                      (SELECT_oldconsultation (Js.trim registrationNumber)
                         (Js.trim consultationText)) ;;
        match existing with
        | Some _ => alert "Warning" "This old consultation already exists."
        | None =>
            runAsync (dml (INSERT_oldconsultation (Js.trim registrationNumber)
                             (Js.trim consultationText) now)) ;;
            alert "Success" "Old consultation added successfully!"
        end)
       (alert "Error" "Failed to add old consultation.")).

End AddTasks.

(* ================================================================= *)
(** ** edittask: [determineCategory] and [handleSubmit] *)

Module EditTask.

Inductive TaskCategory := currentLab | currentImaging | oldLab | oldImaging.

(** The string each category is in the source. *)
Definition name (c : TaskCategory) : string :=
  match c with
  | currentLab => "currentLab"
  | currentImaging => "currentImaging"
  | oldLab => "oldLab"
  | oldImaging => "oldImaging"
  end.

Definition isLabType (type : string) : bool :=
  Js.array_includes ["blood"; "urine"; "miscellanous"] (Js.toLowerCase type).

Definition isImagingType (type : string) : bool :=
  Js.array_includes ["x-ray"; "ct"; "mri"; "usg"] (Js.toLowerCase type).

Definition determineCategory (table type : string) : option TaskCategory :=
  if (table =? "tasks")%string then
    if isLabType type then Some currentLab
    else if isImagingType type then Some currentImaging
    else None
  else if (table =? "oldlabs")%string then
    if isLabType type then Some oldLab
    else if isImagingType type then Some oldImaging
    else None
  else None.

(** The route parameters of the screen. *)
Record Params := {
  registrationNumber : string;
  date_and_time : string;
  type : string;
  subtype : option string;
  table : string;
  task_status : option string
}.

(** The state the effect of the screen sets up from the parameters:
    category, subtype field and status picker. *)
Definition is_current (c : TaskCategory) : bool :=
  match c with
  | currentLab | currentImaging => true
  | oldLab | oldImaging => false
  end.

Definition initial_state (q : Params)
  : option TaskCategory * string * string :=
  match determineCategory (table q) (type q) with
  | Some c =>
      (Some c,
       match subtype q with
       | Some x => if Js.falsy x then "" else x
       | None => ""
       end,
       match task_status q with
       | Some st => if is_current c && negb (Js.falsy st) then st else "unsent"
       | None => "unsent"
       end)
  | None => (None, "", "unsent")
  end.

(** [category.includes("Lab")] picks the columns of the statement. *)
Definition on_lab_columns (c : TaskCategory) : bool :=
  Js.includes (name c) "Lab".

(** [UPDATE tasks SET <lab|imaging>_subtype = ?, task_status = ?
    WHERE registrationNumber = ? AND date_and_time = ? AND
    <lab|imaging>_type = ?] *)
Definition UPDATE_task (lab : bool) (subtype status key date type : string)
    (t : Tables) : option Tables :=
  let hit r :=
    (t_registrationNumber r =? key)%string
    && sql_eq (t_date_and_time r) date
    && sql_eq (if lab then t_lab_type r else t_imaging_type r) type in
  if negb (existsb hit (tasks t)) then Some t
  else if check_in TASK_STATUSES status
  then Some (with_tasks t
         (update_where hit
            (fun r => task_set_task_status status
               ((if lab then task_set_lab_subtype
                 else task_set_imaging_subtype) subtype r))
            (tasks t)))
  else None.

(** [UPDATE oldlabs SET <lab|imaging>_subtype = ?
    WHERE registrationNumber = ? AND date_and_time = ? AND
    <lab|imaging>_type = ?] *)
Definition UPDATE_oldlab (lab : bool) (subtype key date type : string)
    (t : Tables) : option Tables :=
  let hit r :=
    (o_registrationNumber r =? key)%string
    && sql_eq (o_date_and_time r) date
    && sql_eq (if lab then o_lab_type r else o_imaging_type r) type in
  Some (with_oldlabs t
    (update_where hit
       ((if lab then oldlab_set_lab_subtype else oldlab_set_imaging_subtype)
          subtype)
       (oldlabs t))).

(** [category], [subtype] and [status] are the state of the screen; the
    other three come with the route. *)
Definition handleSubmit (category : option TaskCategory)
    (subtype status registrationNumber date_and_time type : string)
  : M unit :=
  match category with
  | None => alert "Error" "Invalid task category."
  | Some c =>
      if Js.blank subtype
      then alert "Validation Error" "Subtype cannot be empty."
      else
        try_catch
          (match c with
           | currentLab | currentImaging =>
               runAsync (dml (UPDATE_task (on_lab_columns c)
                                (Js.trim subtype) status
                                registrationNumber date_and_time type))
           | oldLab | oldImaging =>
               runAsync (dml (UPDATE_oldlab (on_lab_columns c)
                                (Js.trim subtype)
                                registrationNumber date_and_time type))
           end ;;
           alert "Success" "Task updated successfully.")
          (alert "Error" "Failed to update the task.")
  end.

End EditTask.

(* ================================================================= *)
(** ** viewtasks: [fetchTasks] and [deleteItem] *)

Module ViewTasks.

(** An element of one of the six lists of the screen.  The four item
    interfaces are told apart by the caller only, so an item is the object
    with whichever of their fields it has. *)
Record Item := {
  type : option string;
  subtype : option string;
  task_status : option string;
  dateTime : option string;
  consult : option string
}.

Definition lab_item_of_task (r : TaskRow) : Item :=
  {| type := t_lab_type r; subtype := t_lab_subtype r;
     task_status := t_task_status r; dateTime := t_date_and_time r;
     consult := None |}.

Definition imaging_item_of_task (r : TaskRow) : Item :=
  {| type := t_imaging_type r; subtype := t_imaging_subtype r;
     task_status := t_task_status r; dateTime := t_date_and_time r;
     consult := None |}.

Definition lab_item_of_oldlab (r : OldLabRow) : Item :=
  {| type := o_lab_type r; subtype := o_lab_subtype r;
     task_status := None; dateTime := o_date_and_time r; consult := None |}.

Definition imaging_item_of_oldlab (r : OldLabRow) : Item :=
  {| type := o_imaging_type r; subtype := o_imaging_subtype r;
     task_status := None; dateTime := o_date_and_time r; consult := None |}.

Definition item_of_consult (r : ConsultRow) : Item :=
  {| type := None; subtype := None; task_status := c_task_status r;
     dateTime := c_date_and_time r; consult := c_consult r |}.

(** The six SELECT statements of [fetchTasks]. *)
Definition SELECT_currentLabs (key : string) (t : Tables) : list Item :=
  map lab_item_of_task
    (select_where (fun r => (t_registrationNumber r =? key)%string
                            && not_null (t_lab_type r)
                            && not_null (t_lab_subtype r)) (tasks t)).

Definition SELECT_currentImaging (key : string) (t : Tables) : list Item :=
  map imaging_item_of_task
    (select_where (fun r => (t_registrationNumber r =? key)%string
                            && not_null (t_imaging_type r)
                            && not_null (t_imaging_subtype r)) (tasks t)).

Definition SELECT_oldLabs (key : string) (t : Tables) : list Item :=
  map lab_item_of_oldlab
    (select_where (fun r => (o_registrationNumber r =? key)%string
                            && not_null (o_lab_type r)
                            && not_null (o_lab_subtype r)) (oldlabs t)).

Definition SELECT_oldImaging (key : string) (t : Tables) : list Item :=
  map imaging_item_of_oldlab
    (select_where (fun r => (o_registrationNumber r =? key)%string
                            && not_null (o_imaging_type r)
                            && not_null (o_imaging_subtype r)) (oldlabs t)).

Definition SELECT_consultations (key : string) (t : Tables) : list Item :=
  map item_of_consult
    (select_where (fun r => (c_registrationNumber r =? key)%string
                            && not_null (c_consult r)) (consultations t)).

Definition SELECT_oldConsultations (key : string) (t : Tables) : list Item :=
  map item_of_consult
    (select_where (fun r => (c_registrationNumber r =? key)%string
                            && not_null (c_consult r)) (oldconsultations t)).

(** The lists of the screen after a complete [fetchTasks]. *)
Record Lists := {
  currentLabs : list Item;
  currentImaging : list Item;
  oldLabs : list Item;
  oldImaging : list Item;
  consultationsList : list Item;
  oldConsultationsList : list Item
}.

Definition fetchTasks (registrationNumber : string) : M (option Lists) :=
  try_catch
    (l1 <- getAllAsync (SELECT_currentLabs registrationNumber) ;;
     l2 <- getAllAsync (SELECT_currentImaging registrationNumber) ;;
     l3 <- getAllAsync (SELECT_oldLabs registrationNumber) ;;
     l4 <- getAllAsync (SELECT_oldImaging registrationNumber) ;;
     l5 <- getAllAsync (SELECT_consultations registrationNumber) ;;
     l6 <- getAllAsync (SELECT_oldConsultations registrationNumber) ;;
     setError None ;;
     ret (Some {| currentLabs := l1; currentImaging := l2; oldLabs := l3;
                  oldImaging := l4; consultationsList := l5;
                  oldConsultationsList := l6 |}))
    (setError (Some "Failed to load tasks.") ;; ret None).

(** The WHERE clause shared by the DELETE on [tasks] and on [oldlabs]: one
    type and one subtype, bound into both branches of the OR. *)
Definition either_payload (lab_type lab_subtype imaging_type imaging_subtype
    : option string) (ty sub : option string) : bool :=
  (sql_eq_param lab_type ty && sql_eq_param lab_subtype sub)
  || (sql_eq_param imaging_type ty && sql_eq_param imaging_subtype sub).

Definition task_hit (key : string) (it : Item) (r : TaskRow) : bool :=
  (t_registrationNumber r =? key)%string
  && sql_eq_param (t_date_and_time r) (dateTime it)
  && either_payload (t_lab_type r) (t_lab_subtype r)
       (t_imaging_type r) (t_imaging_subtype r) (type it) (subtype it).

Definition oldlab_hit (key : string) (it : Item) (r : OldLabRow) : bool :=
  (o_registrationNumber r =? key)%string
  && sql_eq_param (o_date_and_time r) (dateTime it)
  && either_payload (o_lab_type r) (o_lab_subtype r)
       (o_imaging_type r) (o_imaging_subtype r) (type it) (subtype it).

Definition consult_hit (key : string) (it : Item) (r : ConsultRow) : bool :=
  (c_registrationNumber r =? key)%string
  && sql_eq_param (c_consult r) (consult it)
  && sql_eq_param (c_date_and_time r) (dateTime it).

Definition DELETE_task (key : string) (it : Item) (t : Tables)
  : option Tables :=
  Some (with_tasks t (delete_where (task_hit key it) (tasks t))).

Definition DELETE_oldlab (key : string) (it : Item) (t : Tables)
  : option Tables :=
  Some (with_oldlabs t (delete_where (oldlab_hit key it) (oldlabs t))).

Definition DELETE_consultation (key : string) (it : Item) (t : Tables)
  : option Tables :=
  Some (with_consultations t
          (delete_where (consult_hit key it) (consultations t))).

Definition DELETE_oldconsultation (key : string) (it : Item) (t : Tables)
  : option Tables :=
  Some (with_oldconsultations t
          (delete_where (consult_hit key it) (oldconsultations t))).

(** The [switch (table)]; [None] is the default branch, which throws. *)
Definition delete_query (table registrationNumber : string) (it : Item)
  : option (Tables -> option Tables) :=
  if (table =? "tasks")%string then Some (DELETE_task registrationNumber it)
  else if (table =? "oldlabs")%string
  then Some (DELETE_oldlab registrationNumber it)
  else if (table =? "consultations")%string
  then Some (DELETE_consultation registrationNumber it)
  else if (table =? "oldconsultations")%string
  then Some (DELETE_oldconsultation registrationNumber it)
  else None.

Definition deleteItem (registrationNumber table : string) (it : Item)
  : M unit :=
  try_catch
    (match delete_query table registrationNumber it with
     | None => throw
     | Some q =>
         runAsync (dml q) ;;
         alert "Success" "Item deleted successfully." ;;
         _ <- fetchTasks registrationNumber ;;
         ret tt
     end)
    (alert "Error" "Failed to delete the item.").

(** [handleEdit]: the parameters handed to the edit screen for a listed
    lab or imaging item.  The screen reads [type] as a string, so an item
    without one has no parameters here. *)
Definition handleEdit (registrationNumber table : string) (it : Item)
  : option EditTask.Params :=
  match type it, dateTime it with
  | Some ty, Some d =>
      Some {| EditTask.registrationNumber := registrationNumber;
              EditTask.date_and_time := d;
              EditTask.type := ty;
              EditTask.subtype := subtype it;
              EditTask.table := table;
              EditTask.task_status := task_status it |}
  | _, _ => None
  end.

End ViewTasks.

(* ================================================================= *)
(** ** pendingtasks: [fetchPendingTasks], [markTaskAsSent], [deleteTask] *)

Module PendingTasks.

(** The [identifier] argument, a [Record<string, any>]: a field the caller
    left out is [None]. *)
Record Identifier := {
  registrationNumber : option string;
  dateTime : option string;
  lab_type : option string;
  lab_subtype : option string;
  imaging_type : option string;
  imaging_subtype : option string;
  consult : option string
}.

Definition lab_hit (i : Identifier) (r : TaskRow) : bool :=
  sql_eq_param (Some (t_registrationNumber r)) (registrationNumber i)
  && sql_eq_param (t_date_and_time r) (dateTime i)
  && sql_eq_param (t_lab_type r) (lab_type i)
  && sql_eq_param (t_lab_subtype r) (lab_subtype i).

Definition imaging_hit (i : Identifier) (r : TaskRow) : bool :=
  sql_eq_param (Some (t_registrationNumber r)) (registrationNumber i)
  && sql_eq_param (t_date_and_time r) (dateTime i)
  && sql_eq_param (t_imaging_type r) (imaging_type i)
  && sql_eq_param (t_imaging_subtype r) (imaging_subtype i).

Definition consult_hit (i : Identifier) (r : ConsultRow) : bool :=
  sql_eq_param (Some (c_registrationNumber r)) (registrationNumber i)
  && sql_eq_param (c_date_and_time r) (dateTime i)
  && sql_eq_param (c_consult r) (consult i).

(** The [switch (taskType)] of [markTaskAsSent]: four UPDATE statements
    setting [task_status = 'sent']; [None] is the default branch. *)
Definition sent_query (taskType : string) (i : Identifier)
  : option (Tables -> option Tables) :=
  if (taskType =? "Lab")%string then
    Some (fun t => Some (with_tasks t
      (update_where (lab_hit i) (task_set_task_status "sent") (tasks t))))
  else if (taskType =? "Imaging")%string then
    Some (fun t => Some (with_tasks t
      (update_where (imaging_hit i) (task_set_task_status "sent") (tasks t))))
  else if (taskType =? "Consultation")%string then
    Some (fun t => Some (with_consultations t
      (update_where (consult_hit i) (consult_set_task_status "sent")
         (consultations t))))
  else if (taskType =? "OldConsultation")%string then
    Some (fun t => Some (with_oldconsultations t
      (update_where (consult_hit i) (consult_set_task_status "sent")
         (oldconsultations t))))
  else None.

(** The [switch (taskType)] of [deleteTask]: four DELETE statements. *)
Definition delete_query (taskType : string) (i : Identifier)
  : option (Tables -> option Tables) :=
  if (taskType =? "Lab")%string then
    Some (fun t => Some (with_tasks t (delete_where (lab_hit i) (tasks t))))
  else if (taskType =? "Imaging")%string then
    Some (fun t => Some (with_tasks t
      (delete_where (imaging_hit i) (tasks t))))
  else if (taskType =? "Consultation")%string then
    Some (fun t => Some (with_consultations t
      (delete_where (consult_hit i) (consultations t))))
  else if (taskType =? "OldConsultation")%string then
    Some (fun t => Some (with_oldconsultations t
      (delete_where (consult_hit i) (oldconsultations t))))
  else None.

(** What a pending list shows for one row: the row joined with the name of
    its patient. *)
Record Pending (R : Type) := {
  row : R;
  patientName : string
}.
Arguments row {R} _.
Arguments patientName {R} _.

(** [FROM <table> x JOIN patients p ON x.registrationNumber =
    p.registrationNumber WHERE <cond>].  The ORDER BY of the four
    statements is not modelled: the result is given in table order. *)
Definition join_patients {R} (key : R -> string) (cond : R -> bool)
    (rows : list R) (ps : list PatientRow) : list (Pending R) :=
  flat_map
    (fun r =>
       if cond r then
         map (fun p => {| row := r; patientName := p_patientName p |})
             (select_where
                (fun p => (key r =? p_registrationNumber p)%string) ps)
       else [])
    rows.

Definition unsent (status : option string) : bool := sql_eq status "unsent".

Definition pending_labs (t : Tables) : list (Pending TaskRow) :=
  join_patients t_registrationNumber
    (fun r => not_null (t_lab_type r) && not_null (t_lab_subtype r)
              && unsent (t_task_status r))
    (tasks t) (patients t).

Definition pending_imaging (t : Tables) : list (Pending TaskRow) :=
  join_patients t_registrationNumber
    (fun r => not_null (t_imaging_type r) && not_null (t_imaging_subtype r)
              && unsent (t_task_status r))
    (tasks t) (patients t).

Definition pending_consultations (t : Tables) : list (Pending ConsultRow) :=
  join_patients c_registrationNumber (fun r => unsent (c_task_status r))
    (consultations t) (patients t).

Definition pending_oldconsultations (t : Tables)
  : list (Pending ConsultRow) :=
  join_patients c_registrationNumber (fun r => unsent (c_task_status r))
    (oldconsultations t) (patients t).

(** [fetchPendingTasks], as far as the handle and the log show it. *)
Definition fetchPendingTasks : M unit :=
  try_catch
    (_ <- getAllAsync pending_labs ;;
     _ <- getAllAsync pending_imaging ;;
     _ <- getAllAsync pending_consultations ;;
     _ <- getAllAsync pending_oldconsultations ;;
     setError None)
    (setError (Some "Failed to load pending tasks.")).

Definition markTaskAsSent (taskType : string) (i : Identifier) : M unit :=
  try_catch
    (match sent_query taskType i with
     | None => throw
     | Some q =>
         runAsync (dml q) ;;
         alert "Success" "Task marked as sent." ;;
         fetchPendingTasks
     end)
    (alert "Error" ("Failed to mark " ++ taskType ++ " as sent.")).

(** The body run when the user confirms the deletion. *)
Definition deleteTask (taskType : string) (i : Identifier) : M unit :=
  try_catch
    (match delete_query taskType i with
     | None => throw
     | Some q =>
         runAsync (dml q) ;;
         alert "Success" "Task deleted successfully." ;;
         fetchPendingTasks
     end)
    (alert "Error" ("Failed to delete " ++ taskType ++ ".")).

(** [editTask]: the parameters handed to the edit screen for a pending lab
    or imaging item; the table is always [tasks] and the status always
    'unsent'. *)
Definition editTask (taskType : string) (i : Identifier)
  : option EditTask.Params :=
  let lab := (taskType =? "Lab")%string in
  match registrationNumber i, dateTime i,
        (if lab then lab_type i else imaging_type i) with
  | Some k, Some d, Some ty =>
      Some {| EditTask.registrationNumber := k;
              EditTask.date_and_time := d;
              EditTask.type := ty;
              EditTask.subtype :=
                if lab then lab_subtype i else imaging_subtype i;
              EditTask.table := "tasks";
              EditTask.task_status := Some "unsent" |}
  | _, _, _ => None
  end.

(** The identifier the list builds for a pending lab, imaging or
    consultation item. *)
Definition lab_identifier (r : TaskRow) : Identifier :=
  {| registrationNumber := Some (t_registrationNumber r);
     dateTime := t_date_and_time r;
     lab_type := t_lab_type r;
     lab_subtype := t_lab_subtype r;
     imaging_type := None; imaging_subtype := None; consult := None |}.

Definition imaging_identifier (r : TaskRow) : Identifier :=
  {| registrationNumber := Some (t_registrationNumber r);
     dateTime := t_date_and_time r;
     lab_type := None; lab_subtype := None;
     imaging_type := t_imaging_type r;
     imaging_subtype := t_imaging_subtype r;
     consult := None |}.

Definition consult_identifier (r : ConsultRow) : Identifier :=
  {| registrationNumber := Some (c_registrationNumber r);
     dateTime := c_date_and_time r;
     lab_type := None; lab_subtype := None;
     imaging_type := None; imaging_subtype := None;
     consult := c_consult r |}.

End PendingTasks.

(* ================================================================= *)
(** ** The application as a transition system *)

Module App.

(** One user action: a handler of one screen together with the state of
    that screen when it fires. *)
Inductive Action :=
| AddPatient_handleSubmit (db : bool) (today : string) (f : AddPatient.Form)
| EditPatient_handleUpdate (original : string)
    (patient : option EditPatient.Patient)
| ReviewPatients_discharge (registrationNumber : string)
| ReviewOldPatients_reAdmit (registrationNumber : string)
| AddTasks_handleAddLab (db isDbInitialized : bool)
    (registrationNumber labType labSubtype now : string)
| AddTasks_handleAddOldLab (db isDbInitialized : bool)
    (registrationNumber labType labSubtype now : string)
| AddTasks_handleAddImaging (db isDbInitialized : bool)
    (registrationNumber imagingType imagingSubtype now : string)
| AddTasks_handleAddOldImaging (db isDbInitialized : bool)
    (registrationNumber imagingType imagingSubtype now : string)
| AddTasks_handleAddConsultation (db isDbInitialized : bool)
    (registrationNumber consultationText now : string)
| AddTasks_handleAddOldConsultation (db isDbInitialized : bool)
    (registrationNumber consultationText now : string)
| EditTask_handleSubmit (category : option EditTask.TaskCategory)
    (subtype status registrationNumber date_and_time type : string)
| ViewTasks_deleteItem (registrationNumber table : string)
    (item : ViewTasks.Item)
| PendingTasks_markTaskAsSent (taskType : string)
    (identifier : PendingTasks.Identifier)
| PendingTasks_deleteTask (taskType : string)
    (identifier : PendingTasks.Identifier).

Definition handler (a : Action) : M unit :=
  match a with
  | AddPatient_handleSubmit db today f => AddPatient.handleSubmit db today f
  | EditPatient_handleUpdate original patient =>
      EditPatient.handleUpdate original patient
  | ReviewPatients_discharge k => ReviewPatients.discharge k
  | ReviewOldPatients_reAdmit k => ReviewPatients.reAdmit k
  | AddTasks_handleAddLab db i k ty sub now =>
      AddTasks.handleAddLab db i k ty sub now
  | AddTasks_handleAddOldLab db i k ty sub now =>
      AddTasks.handleAddOldLab db i k ty sub now
  | AddTasks_handleAddImaging db i k ty sub now =>
      AddTasks.handleAddImaging db i k ty sub now
  | AddTasks_handleAddOldImaging db i k ty sub now =>
      AddTasks.handleAddOldImaging db i k ty sub now
  | AddTasks_handleAddConsultation db i k text now =>
      AddTasks.handleAddConsultation db i k text now
  | AddTasks_handleAddOldConsultation db i k text now =>
      AddTasks.handleAddOldConsultation db i k text now
  | EditTask_handleSubmit c sub st k d ty =>
      EditTask.handleSubmit c sub st k d ty
  | ViewTasks_deleteItem k table it => ViewTasks.deleteItem k table it
  | PendingTasks_markTaskAsSent ty i => PendingTasks.markTaskAsSent ty i
  | PendingTasks_deleteTask ty i => PendingTasks.deleteTask ty i
  end.

(** The connection after one action under a schedule. *)
Definition step (s : Store) (af : Action * list bool) : Store :=
  fst (run (handler (fst af)) (snd af) s).

(** The connection after a sequence of actions, each under its schedule. *)
Definition exec (l : list (Action * list bool)) (s : Store) : Store :=
  fold_left step l s.

End App.

(* ================================================================= *)
(** ** Properties of connections and of their content *)

Module Props.

(** [keeps P m]: running [m] in a state that satisfies [P] ends in a state
    that satisfies [P], whether [m] returns or throws. *)
Definition keeps (P : Store -> Prop) {A} (m : M A) : Prop :=
  forall w, P (store w) -> P (store (snd (m w))).

(** A property of the content holds of a connection when it holds of the
    current content and of the snapshot a ROLLBACK would restore. *)
Definition lifted (I : Tables -> Prop) (s : Store) : Prop :=
  I (cur s) /\ forall t, saved s = Some t -> I t.

(** [f] takes content satisfying [I] to content satisfying [I]. *)
Definition stmt_keeps (I : Tables -> Prop) (f : Tables -> option Tables)
  : Prop :=
  forall t t', I t -> f t = Some t' -> I t'.

(** Exactly one of the two payloads: both lab columns set and both imaging
    columns NULL, or the reverse. *)
Definition payload_exclusive
    (lab_type lab_subtype imaging_type imaging_subtype : option string)
  : bool :=
  match lab_type, lab_subtype, imaging_type, imaging_subtype with
  | Some _, Some _, None, None => true
  | None, None, Some _, Some _ => true
  | _, _, _, _ => false
  end.

Definition task_wf (r : TaskRow) : bool :=
  payload_exclusive (t_lab_type r) (t_lab_subtype r)
    (t_imaging_type r) (t_imaging_subtype r)
  && check_in_null LAB_TYPES (t_lab_type r)
  && check_in_null IMAGING_TYPES (t_imaging_type r)
  && not_null (t_task_status r)
  && check_in_null TASK_STATUSES (t_task_status r)
  && not_null (t_date_and_time r).

Definition oldlab_wf (r : OldLabRow) : bool :=
  payload_exclusive (o_lab_type r) (o_lab_subtype r)
    (o_imaging_type r) (o_imaging_subtype r)
  && check_in_null LAB_TYPES (o_lab_type r)
  && check_in_null IMAGING_TYPES (o_imaging_type r)
  && not_null (o_date_and_time r).

Definition consult_wf (r : ConsultRow) : bool :=
  not_null (c_consult r)
  && not_null (c_task_status r)
  && check_in_null TASK_STATUSES (c_task_status r)
  && not_null (c_date_and_time r).

Definition patient_wf (r : PatientRow) : bool :=
  check_in GENDERS (p_gender r)
  && not_null (p_location r)
  && check_in_null LOCATIONS (p_location r)
  && ((p_is_discharged r =? 0) || (p_is_discharged r =? 1)).

Record WellFormed (t : Tables) : Prop := {
  wf_unique : NoDup (map p_registrationNumber (patients t));
  wf_patients : Forall (fun r => patient_wf r = true) (patients t);
  wf_tasks : Forall (fun r => task_wf r = true) (tasks t);
  wf_oldlabs : Forall (fun r => oldlab_wf r = true) (oldlabs t);
  wf_consultations : Forall (fun r => consult_wf r = true) (consultations t);
  wf_oldconsultations :
    Forall (fun r => consult_wf r = true) (oldconsultations t)
}.

(** The property every reachable connection has. *)
Definition Good : Store -> Prop := lifted WellFormed.

(** The payload rule alone, on both tables that have the columns. *)
Definition task_payload (r : TaskRow) : bool :=
  payload_exclusive (t_lab_type r) (t_lab_subtype r)
    (t_imaging_type r) (t_imaging_subtype r).

Definition oldlab_payload (r : OldLabRow) : bool :=
  payload_exclusive (o_lab_type r) (o_lab_subtype r)
    (o_imaging_type r) (o_imaging_subtype r).

Definition PayloadOk (t : Tables) : Prop :=
  Forall (fun r => task_payload r = true) (tasks t)
  /\ Forall (fun r => oldlab_payload r = true) (oldlabs t).

(** No two patient rows with one registration number. *)
Definition UniqueKeys (t : Tables) : Prop :=
  NoDup (map p_registrationNumber (patients t)).

(** The INSERT, UPDATE and DELETE statements the handlers issue. *)
Inductive app_statement : (Tables -> option Tables) -> Prop :=
| st_INSERT_patient n a g k l b c d m ct today :
    app_statement (AddPatient.INSERT_patient n a g k l b c d m ct today)
| st_UPDATE_patient p original :
    app_statement (EditPatient.UPDATE_patient p original)
| st_UPDATE_tasks_key n o :
    app_statement (EditPatient.UPDATE_tasks_key n o)
| st_UPDATE_oldlabs_key n o :
    app_statement (EditPatient.UPDATE_oldlabs_key n o)
| st_discharge k : app_statement (ReviewPatients.UPDATE_is_discharged 1 k)
| st_reAdmit k : app_statement (ReviewPatients.UPDATE_is_discharged 0 k)
| st_INSERT_task_lab k ty sub now :
    app_statement (AddTasks.INSERT_task_lab k ty sub now)
| st_INSERT_task_imaging k ty sub now :
    app_statement (AddTasks.INSERT_task_imaging k ty sub now)
| st_INSERT_oldlab_lab k ty sub now :
    app_statement (AddTasks.INSERT_oldlab_lab k ty sub now)
| st_INSERT_oldlab_imaging k ty sub now :
    app_statement (AddTasks.INSERT_oldlab_imaging k ty sub now)
| st_INSERT_consultation k text now :
    app_statement (AddTasks.INSERT_consultation k text now)
| st_INSERT_oldconsultation k text now :
    app_statement (AddTasks.INSERT_oldconsultation k text now)
| st_UPDATE_task lab sub status k d ty :
    app_statement (EditTask.UPDATE_task lab sub status k d ty)
| st_UPDATE_oldlab lab sub k d ty :
    app_statement (EditTask.UPDATE_oldlab lab sub k d ty)
| st_ViewTasks_delete table k it q :
    ViewTasks.delete_query table k it = Some q -> app_statement q
| st_PendingTasks_sent ty i q :
    PendingTasks.sent_query ty i = Some q -> app_statement q
| st_PendingTasks_delete ty i q :
    PendingTasks.delete_query ty i = Some q -> app_statement q.

(** editpatient: the five tests before the try block all pass. *)
Definition EditPatient_valid (p : EditPatient.Patient) : bool :=
  negb (Js.blank (EditPatient.patientName p))
  && negb (Js.nan_or_nonpositive (EditPatient.age p))
  && negb (Js.blank (EditPatient.registrationNumber p))
  && negb (Js.blank (EditPatient.location p))
  && negb (Js.blank (EditPatient.contact p)).

(** addpatient: one of the three tests before the try block fails. *)
Definition AddPatient_invalid (f : AddPatient.Form) : bool :=
  AddPatient.some_required_blank f
  || Js.nan_or_nonpositive (Js.parseInt (AddPatient.age f))
  || Js.nan_or_nonpositive (Js.parseInt (AddPatient.bedNumber f)).










(** Two patient rows that agree on every column except [is_discharged]. *)
Definition same_but_discharged (r r' : PatientRow) : Prop :=
  p_id r' = p_id r
  /\ p_patientName r' = p_patientName r
  /\ p_age r' = p_age r
  /\ p_gender r' = p_gender r
  /\ p_registrationNumber r' = p_registrationNumber r
  /\ p_location r' = p_location r
  /\ p_bedNumber r' = p_bedNumber r
  /\ p_chiefComplaints r' = p_chiefComplaints r
  /\ p_provisionalDiagnosis r' = p_provisionalDiagnosis r
  /\ p_miscNotes r' = p_miscNotes r
  /\ p_reg_date r' = p_reg_date r
  /\ p_contact r' = p_contact r.

(** The connection after [UPDATE patients SET is_discharged = v WHERE
    registrationNumber = key] was carried out. *)
Definition discharged_to (v : Z) (key : string) (s : Store) : Store :=
  {| cur := with_patients (cur s)
              (update_where
                 (fun r => (p_registrationNumber r =? key)%string)
                 (patient_set_is_discharged v) (patients (cur s)));
     saved := saved s |}.

(** The state of a handler after a call that failed, and after one that
    succeeded with connection [s]: the call is gone from the schedule. *)
Definition tick (w : World) : World :=
  {| store := store w; faults := tl (faults w); ui := ui w |}.

Definition tick_to (w : World) (s : Store) : World :=
  {| store := s; faults := tl (faults w); ui := ui w |}.

End Props.
Export Props.

(* ================================================================= *)
(** ** Sample data *)

Module Samples.

Definition jane : AddPatient.Form :=
  {| AddPatient.registrationNumber := "R100";
     AddPatient.patientName := "Jane Doe";
     AddPatient.age := "34";
     AddPatient.gender := "Female";
     AddPatient.location := "ICU";
     AddPatient.bedNumber := "7";
     AddPatient.chiefComplaints := "fever";
     AddPatient.provisionalDiagnosis := "malaria";
     AddPatient.miscNotes := "";
     AddPatient.number := "5550100" |}.


Definition t0 : string := "2024-01-01 10:00:00".
Definition t1 : string := "2024-01-01 11:00:00".

(** Jane admitted, with one lab order, one imaging order and one
    consultation. *)
Definition ward_actions : list (App.Action * list bool) :=
  [ (App.AddPatient_handleSubmit true "2024-01-01" jane, []);
    (App.AddTasks_handleAddLab true true "R100" "blood" "CBC" t0, []);
    (App.AddTasks_handleAddImaging true true "R100" "CT" "Chest" t0, []);
    (App.AddTasks_handleAddConsultation true true "R100" "Cardiology" t0,
     []) ].

Definition ward : Store := App.exec ward_actions initial_store.

(** The row of Jane on the ward. *)
Definition jane_row : PatientRow :=
  {| p_id := 1; p_patientName := "Jane Doe"; p_age := Some 34;
     p_gender := "Female"; p_registrationNumber := "R100";
     p_location := Some "ICU"; p_bedNumber := Some 7;
     p_chiefComplaints := Some "fever";
     p_provisionalDiagnosis := Some "malaria";
     p_miscNotes := Some ""; p_reg_date := Some "2024-01-01";
     p_contact := "5550100"; p_is_discharged := 0 |}.

(** The row of her lab order. *)
Definition cbc_row : TaskRow :=
  {| t_id := 1; t_registrationNumber := "R100";
     t_lab_type := Some "blood"; t_lab_subtype := Some "CBC";
     t_date_and_time := Some t0;
     t_imaging_type := None; t_imaging_subtype := None;
     t_task_status := Some "unsent" |}.

(** The edit form of Jane with the gender picker on its placeholder. *)
Definition jane_without_gender : EditPatient.Patient :=
  {| EditPatient.patientName := "Jane Doe";
     EditPatient.age := Some 34;
     EditPatient.gender := "";
     EditPatient.registrationNumber := "R100";
     EditPatient.location := "ICU";
     EditPatient.bedNumber := Some 7;
     EditPatient.chiefComplaints := Some "fever";
     EditPatient.provisionalDiagnosis := Some "malaria";
     EditPatient.miscNotes := None;
     EditPatient.reg_date := "2024-01-01";
     EditPatient.contact := "5550100" |}.

Definition john : AddPatient.Form :=
  {| AddPatient.registrationNumber := "R200";
     AddPatient.patientName := "John Roe";
     AddPatient.age := "61";
     AddPatient.gender := "Male";
     AddPatient.location := "HDU";
     AddPatient.bedNumber := "2";
     AddPatient.chiefComplaints := "chest pain";
     AddPatient.provisionalDiagnosis := "angina";
     AddPatient.miscNotes := "";
     AddPatient.number := "5550101" |}.


(** The edit form of Jane with the registration number changed. *)
Definition jane_as_R200 : EditPatient.Patient :=
  {| EditPatient.patientName := "Jane Doe";
     EditPatient.age := Some 34;
     EditPatient.gender := "Female";
     EditPatient.registrationNumber := "R200";
     EditPatient.location := "ICU";
     EditPatient.bedNumber := Some 7;
     EditPatient.chiefComplaints := Some "fever";
     EditPatient.provisionalDiagnosis := Some "malaria";
     EditPatient.miscNotes := None;
     EditPatient.reg_date := "2024-01-01";
     EditPatient.contact := "5550100" |}.

(** The item the screen lists for the imaging order of [ward]. *)
Definition chest_ct : ViewTasks.Item :=
  {| ViewTasks.type := Some "CT";
     ViewTasks.subtype := Some "Chest";
     ViewTasks.task_status := Some "unsent";
     ViewTasks.dateTime := Some t0;
     ViewTasks.consult := None |}.

(** The row of that imaging order. *)
Definition chest_ct_row : TaskRow :=
  {| t_id := 2; t_registrationNumber := "R100";
     t_lab_type := None; t_lab_subtype := None;
     t_date_and_time := Some t0;
     t_imaging_type := Some "CT"; t_imaging_subtype := Some "Chest";
     t_task_status := Some "unsent" |}.

End Samples.

(* ================================================================= *)
(** ** Reasoning about handlers *)

Module Logic.

Section Rules.
Variable P : Store -> Prop.

Lemma keeps_ret {A} (a : A) : keeps P (ret a).
Proof. intros w H; exact H. Qed.

Lemma keeps_throw {A} : keeps P (@throw A).
Proof. intros w H; exact H. Qed.

Lemma keeps_emit e : keeps P (emit e).
Proof. intros w H; exact H. Qed.

Lemma keeps_bind {A B} (m : M A) (k : A -> M B) :
  keeps P m -> (forall a, keeps P (k a)) -> keeps P (bind m k).
Proof.
  intros Hm Hk w H. unfold bind.
  specialize (Hm w H). destruct (m w) as [[a|] w']; simpl in *.
  - apply Hk, Hm.
  - exact Hm.
Qed.

Lemma keeps_try_catch {A} (body handler : M A) :
  keeps P body -> keeps P handler -> keeps P (try_catch body handler).
Proof.
  intros Hb Hh w H. unfold try_catch.
  specialize (Hb w H). destruct (body w) as [[a|] w']; simpl in *.
  - exact Hb.
  - apply Hh, Hb.
Qed.

Lemma keeps_db_call {A} (f : Store -> option (A * Store)) :
  (forall s a s', P s -> f s = Some (a, s') -> P s') ->
  keeps P (db_call f).
Proof.
  intros Hf w H. unfold db_call.
  destruct (faults w) as [|[|] fs]; simpl; try exact H;
    destruct (f (store w)) as [[a s']|] eqn:E; simpl; eauto.
Qed.

Lemma keeps_runAsync (st : Statement) :
  (forall s s', P s -> st s = Some s' -> P s') -> keeps P (runAsync st).
Proof.
  intros Hst. apply keeps_db_call. intros s [] s' H E.
  destruct (st s) eqn:Es; inversion E; subst. eauto.
Qed.

Lemma keeps_getAllAsync {R} (q : Tables -> list R) :
  keeps P (getAllAsync q).
Proof.
  apply keeps_db_call. intros s a s' H E. inversion E; subst. exact H.
Qed.

Lemma keeps_getFirstAsync {R} (q : Tables -> list R) :
  keeps P (getFirstAsync q).
Proof.
  apply keeps_db_call. intros s a s' H E. inversion E; subst. exact H.
Qed.
End Rules.

Section Lifted.
Variable I : Tables -> Prop.

Lemma lifted_BEGIN s s' :
  lifted I s -> BEGIN_TRANSACTION s = Some s' -> lifted I s'.
Proof.
  unfold BEGIN_TRANSACTION. intros [Hc Hs] E.
  destruct (saved s); inversion E; subst; split; simpl; auto.
  intros t0 Ht; inversion Ht; subst; exact Hc.
Qed.

Lemma lifted_COMMIT s s' : lifted I s -> COMMIT s = Some s' -> lifted I s'.
Proof.
  unfold COMMIT. intros [Hc Hs] E.
  destruct (saved s); inversion E; subst; split; simpl; auto.
  intros t0 Ht; discriminate.
Qed.

Lemma lifted_ROLLBACK s s' :
  lifted I s -> ROLLBACK s = Some s' -> lifted I s'.
Proof.
  unfold ROLLBACK. intros [Hc Hs] E.
  destruct (saved s) eqn:Es; inversion E; subst; split; simpl; auto.
  intros t' Ht; discriminate.
Qed.

Lemma lifted_dml f s s' :
  stmt_keeps I f -> lifted I s -> dml f s = Some s' -> lifted I s'.
Proof.
  unfold dml. intros Hf [Hc Hs] E.
  destruct (f (cur s)) eqn:Ef; inversion E; subst; split; simpl; eauto.
Qed.

Lemma lifted_initial : I empty_tables -> lifted I initial_store.
Proof. intros H; split; simpl; auto. intros t E; discriminate. Qed.
End Lifted.

(** Facts on the three list operations of the statements. *)
Section Lists.
Context {R : Type}.

Lemma Forall_update_where (Q : R -> Prop) p f rows :
  Forall Q rows ->
  (forall r, Q r -> p r = true -> Q (f r)) ->
  Forall Q (update_where p f rows).
Proof.
  intros H Hf. unfold update_where. apply Forall_map.
  eapply Forall_impl; [|exact H]. intros r Hr. simpl.
  destruct (p r) eqn:E; auto.
Qed.

Lemma Forall_delete_where (Q : R -> Prop) p rows :
  Forall Q rows -> Forall Q (delete_where p rows).
Proof.
  intros H. unfold delete_where. rewrite Forall_forall in *.
  intros r Hr. apply filter_In in Hr. apply H, Hr.
Qed.

Lemma Forall_snoc (Q : R -> Prop) rows r :
  Forall Q rows -> Q r -> Forall Q (rows ++ [r]).
Proof. intros H Hr. apply Forall_app; split; auto. Qed.

Lemma map_update_where_same {K} (key : R -> K) p f rows :
  (forall r, key (f r) = key r) ->
  map key (update_where p f rows) = map key rows.
Proof.
  intros Hf. unfold update_where. rewrite map_map.
  apply map_ext. intros r. destruct (p r); auto.
Qed.
End Lists.

Lemma existsb_eqb_In x l : existsb (String.eqb x) l = true <-> In x l.
Proof.
  rewrite existsb_exists. split.
  - intros [y [Hy E]]. apply String.eqb_eq in E. subst. exact Hy.
  - intros H. exists x. split; auto. apply String.eqb_refl.
Qed.

Lemma nodupb_NoDup l : nodupb l = true <-> NoDup l.
Proof.
  induction l as [|x l IH]; simpl.
  - split; auto. constructor.
  - rewrite andb_true_iff, negb_true_iff, IH. split.
    + intros [Hx Hl]. constructor; auto.
      intros Hin. apply existsb_eqb_In in Hin. congruence.
    + intros H. inversion H; subst. split; auto.
      destruct (existsb (String.eqb x) l) eqn:E; auto.
      apply existsb_eqb_In in E. contradiction.
  Qed.

(** *** Reading a run backwards *)

Lemma bind_inv_Ok {A B} (m : M A) (k : A -> M B) w b w' :
  bind m k w = (Ok b, w') ->
  exists a w1, m w = (Ok a, w1) /\ k a w1 = (Ok b, w').
Proof.
  unfold bind. destruct (m w) as [[a|] w1]; intros H; [eauto|discriminate].
Qed.

Lemma bind_inv_Throw {A B} (m : M A) (k : A -> M B) w w' :
  bind m k w = (Throw, w') ->
  m w = (Throw, w') \/ exists a w1, m w = (Ok a, w1) /\ k a w1 = (Throw, w').
Proof.
  unfold bind. destruct (m w) as [[a|] w1]; intros H; [eauto|left; congruence].
Qed.

Lemma try_catch_inv {A} (body handler : M A) w r :
  try_catch body handler w = r ->
  (exists a w1, body w = (Ok a, w1) /\ r = (Ok a, w1))
  \/ (exists w1, body w = (Throw, w1) /\ r = handler w1).
Proof.
  unfold try_catch. destruct (body w) as [[a|] w1]; intros <-; eauto.
Qed.

Lemma db_call_inv_Ok {A} (f : Store -> option (A * Store)) w a w' :
  db_call f w = (Ok a, w') ->
  hd false (faults w) = false /\
  exists s', f (store w) = Some (a, s') /\ w' = tick_to w s'.
Proof.
  unfold db_call, tick_to.
  destruct (faults w) as [|[|] fs]; simpl;
    try discriminate;
    destruct (f (store w)) as [[a' s']|]; intros H; inversion H; subst; eauto.
Qed.

Lemma db_call_inv_Throw {A} (f : Store -> option (A * Store)) w w' :
  db_call f w = (Throw, w') -> w' = tick w.
Proof.
  unfold db_call, tick.
  destruct (faults w) as [|[|] fs]; simpl;
    try (intros H; inversion H; reflexivity);
    destruct (f (store w)) as [[a' s']|]; intros H; inversion H; subst; eauto.
Qed.

Lemma runAsync_inv_Ok st w u w' :
  runAsync st w = (Ok u, w') ->
  hd false (faults w) = false /\
  exists s', st (store w) = Some s' /\ w' = tick_to w s'.
Proof.
  unfold runAsync. intros H. apply db_call_inv_Ok in H.
  destruct H as [Hf [s' [E ->]]]. split; auto.
  destruct (st (store w)); inversion E; subst; eauto.
Qed.

Lemma getFirstAsync_inv_Ok {R} (q : Tables -> list R) w a w' :
  getFirstAsync q w = (Ok a, w') ->
  hd false (faults w) = false /\
  a = hd_error (q (cur (store w))) /\ w' = tick w.
Proof.
  unfold getFirstAsync. intros H. apply db_call_inv_Ok in H.
  destruct H as [Hf [s' [E ->]]]. inversion E; subst. auto.
Qed.

Lemma getAllAsync_inv_Ok {R} (q : Tables -> list R) w a w' :
  getAllAsync q w = (Ok a, w') ->
  hd false (faults w) = false /\ a = q (cur (store w)) /\ w' = tick w.
Proof.
  unfold getAllAsync. intros H. apply db_call_inv_Ok in H.
  destruct H as [Hf [s' [E ->]]]. inversion E; subst. auto.
Qed.

Lemma emit_inv e w r w' :
  emit e w = (r, w') ->
  r = Ok tt
  /\ w' = {| store := store w; faults := faults w; ui := ui w ++ [e] |}.
Proof. unfold emit. intros H; inversion H; auto. Qed.

Lemma dml_inv f s s' :
  dml f s = Some s' ->
  exists t, f (cur s) = Some t /\ s' = {| cur := t; saved := saved s |}.
Proof.
  unfold dml. destruct (f (cur s)); intros H; inversion H; eauto.
Qed.

Lemma BEGIN_inv s s' :
  BEGIN_TRANSACTION s = Some s' ->
  saved s = None /\ s' = {| cur := cur s; saved := Some (cur s) |}.
Proof.
  unfold BEGIN_TRANSACTION. destruct (saved s); intros H; inversion H; auto.
Qed.

Lemma COMMIT_inv s s' :
  COMMIT s = Some s' ->
  saved s <> None /\ s' = {| cur := cur s; saved := None |}.
Proof.
  unfold COMMIT. destruct (saved s); intros H; inversion H.
  split; [discriminate|reflexivity].
Qed.

(** One step of reading a run of a handler backwards. *)
Ltac inv_m :=
  match goal with
  | H : ret _ _ = _ |- _ => inversion H; subst; clear H
  | H : throw _ = _ |- _ => inversion H; subst; clear H
  | H : bind _ _ _ = (Ok _, _) |- _ =>
      apply bind_inv_Ok in H; destruct H as (? & ? & ? & H)
  | H : bind _ _ _ = (Throw, _) |- _ =>
      apply bind_inv_Throw in H; destruct H as [H | (? & ? & ? & H)]
  | H : try_catch _ _ _ = _ |- _ =>
      apply try_catch_inv in H;
      destruct H as [(? & ? & ? & H) | (? & ? & H)];
      [inversion H; subst; clear H | symmetry in H]
  | H : emit _ _ = _ |- _ => apply emit_inv in H; destruct H; subst
  | H : alert _ _ _ = _ |- _ => apply emit_inv in H; destruct H; subst
  | H : setError _ _ = _ |- _ => apply emit_inv in H; destruct H; subst
  | H : runAsync _ _ = (Ok _, _) |- _ =>
      apply runAsync_inv_Ok in H; destruct H as (? & ? & H & ?); subst
  | H : runAsync _ _ = (Throw, _) |- _ =>
      apply db_call_inv_Throw in H; subst
  | H : getFirstAsync _ _ = (Ok _, _) |- _ =>
      apply getFirstAsync_inv_Ok in H; destruct H as (? & ? & ?); subst
  | H : getFirstAsync _ _ = (Throw, _) |- _ =>
      apply db_call_inv_Throw in H; subst
  | H : getAllAsync _ _ = (Ok _, _) |- _ =>
      apply getAllAsync_inv_Ok in H; destruct H as (? & ? & ?); subst
  | H : getAllAsync _ _ = (Throw, _) |- _ =>
      apply db_call_inv_Throw in H; subst
  | H : (if ?b then _ else _) _ = _ |- _ => destruct b eqn:?
  | H : (match ?x with Some _ => _ | None => _ end) _ = _ |- _ =>
      destruct x eqn:?
  | H : _ ?w = (?r, _) |- _ => is_var r; destruct r
  end.

(** Open the statements a successful run went through. *)
Ltac inv_stmt :=
  match goal with
  | H : dml _ _ = Some _ |- _ =>
      apply dml_inv in H; destruct H as (? & H & ?); subst
  | H : BEGIN_TRANSACTION _ = Some _ |- _ =>
      apply BEGIN_inv in H; destruct H as (? & ?); subst
  | H : COMMIT _ = Some _ |- _ =>
      apply COMMIT_inv in H; destruct H as (? & ?); subst
  end.

End Logic.
Import Logic.

(* ================================================================= *)
(** ** What every stored row satisfies *)

Module Invariant.

#[local] Arguments check_in : simpl never.

Lemma WellFormed_empty : WellFormed empty_tables.
Proof. constructor; simpl; constructor. Qed.

(** Break a conjunction of boolean tests into its parts. *)
Ltac split_bools :=
  repeat match goal with
  | H : (_ && _)%bool = true |- _ => apply andb_true_iff in H; destruct H
  | H : (_ && _)%bool = false |- _ => fail
  | |- (_ && _)%bool = true => apply andb_true_iff; split
  end.

(** Open a statement that succeeded. *)
Ltac open_stmt E :=
  repeat match type of E with
  | (if ?c then _ else _) = Some _ =>
      let C := fresh "C" in destruct c eqn:C; [|try discriminate E]
  | (if ?c then _ else _) = Some _ =>
      let C := fresh "C" in destruct c eqn:C; [try discriminate E|]
  end;
  try (injection E as <-).

Lemma sql_eq_Some col v : sql_eq col v = true -> col = Some v.
Proof.
  destruct col; simpl; intros H; [|discriminate].
  apply String.eqb_eq in H. congruence.
Qed.

Lemma sql_eq_param_Some col param :
  sql_eq_param col param = true -> exists v, col = Some v /\ param = Some v.
Proof.
  destruct param; simpl; intros H; [|discriminate].
  apply sql_eq_Some in H. eauto.
Qed.

Lemma keys_snoc_NoDup (rows : list PatientRow) (r : PatientRow) :
  NoDup (map p_registrationNumber rows) ->
  existsb (fun x => (p_registrationNumber x =? p_registrationNumber r)%string)
          rows = false ->
  NoDup (map p_registrationNumber (rows ++ [r])).
Proof.
  intros Hnd Hex. rewrite map_app. simpl.
  apply NoDup_app; [exact Hnd | repeat constructor; simpl; tauto |].
  intros k Hk [<-|[]].
  apply in_map_iff in Hk. destruct Hk as [x [Hx Hin]].
  assert (existsb (fun x => (p_registrationNumber x
                               =? p_registrationNumber r)%string) rows = true).
  { apply existsb_exists. exists x. split; auto.
    rewrite Hx. apply String.eqb_refl. }
  congruence.
Qed.

(** *** Statement by statement *)

Lemma INSERT_patient_keeps n a g k l b c d m ct today :
  stmt_keeps WellFormed (AddPatient.INSERT_patient n a g k l b c d m ct today).
Proof.
  intros t t' [] E. unfold AddPatient.INSERT_patient in E. open_stmt E.
  split_bools. apply negb_true_iff in H0.
  constructor; simpl; auto.
  - apply keys_snoc_NoDup; auto.
  - apply Forall_snoc; auto. unfold patient_wf; simpl.
    rewrite H, H1. reflexivity.
Qed.

Lemma set_columns_wf p r :
  check_in GENDERS (EditPatient.gender p) = true ->
  check_in LOCATIONS (EditPatient.location p) = true ->
  patient_wf r = true -> patient_wf (EditPatient.set_columns p r) = true.
Proof.
  unfold patient_wf; simpl. intros Hg Hl H. split_bools; auto.
Qed.

Lemma UPDATE_patient_keeps p original :
  stmt_keeps WellFormed (EditPatient.UPDATE_patient p original).
Proof.
  intros t t' [] E. unfold EditPatient.UPDATE_patient in E. open_stmt E.
  - constructor; auto.
  - split_bools. constructor; simpl; auto.
    + apply nodupb_NoDup; assumption.
    + apply Forall_update_where; auto. intros r Hr _.
      apply set_columns_wf; auto.
Qed.

Lemma UPDATE_tasks_key_keeps newKey oldKey :
  stmt_keeps WellFormed (EditPatient.UPDATE_tasks_key newKey oldKey).
Proof.
  intros t t' [] E. injection E as <-. constructor; simpl; auto.
  apply Forall_update_where; auto.
Qed.

Lemma UPDATE_oldlabs_key_keeps newKey oldKey :
  stmt_keeps WellFormed (EditPatient.UPDATE_oldlabs_key newKey oldKey).
Proof.
  intros t t' [] E. injection E as <-. constructor; simpl; auto.
  apply Forall_update_where; auto.
Qed.

Lemma UPDATE_is_discharged_keeps v key :
  v = 0 \/ v = 1 ->
  stmt_keeps WellFormed (ReviewPatients.UPDATE_is_discharged v key).
Proof.
  intros Hv t t' [] E. injection E as <-. constructor; simpl; auto.
  - rewrite map_update_where_same; auto.
  - apply Forall_update_where; auto. intros r Hr _.
    unfold patient_wf in *; simpl. split_bools; auto.
    destruct Hv; subst; reflexivity.
Qed.

Lemma INSERT_task_lab_keeps k ty sub now :
  stmt_keeps WellFormed (AddTasks.INSERT_task_lab k ty sub now).
Proof.
  intros t t' [] E. unfold AddTasks.INSERT_task_lab in E. open_stmt E.
  constructor; simpl; auto.
  apply Forall_snoc; auto. unfold task_wf; simpl. rewrite C. reflexivity.
Qed.

Lemma INSERT_task_imaging_keeps k ty sub now :
  stmt_keeps WellFormed (AddTasks.INSERT_task_imaging k ty sub now).
Proof.
  intros t t' [] E. unfold AddTasks.INSERT_task_imaging in E. open_stmt E.
  constructor; simpl; auto.
  apply Forall_snoc; auto. unfold task_wf; simpl. rewrite C. reflexivity.
Qed.

Lemma INSERT_oldlab_lab_keeps k ty sub now :
  stmt_keeps WellFormed (AddTasks.INSERT_oldlab_lab k ty sub now).
Proof.
  intros t t' [] E. unfold AddTasks.INSERT_oldlab_lab in E. open_stmt E.
  constructor; simpl; auto.
  apply Forall_snoc; auto. unfold oldlab_wf; simpl. rewrite C. reflexivity.
Qed.

Lemma INSERT_oldlab_imaging_keeps k ty sub now :
  stmt_keeps WellFormed (AddTasks.INSERT_oldlab_imaging k ty sub now).
Proof.
  intros t t' [] E. unfold AddTasks.INSERT_oldlab_imaging in E. open_stmt E.
  constructor; simpl; auto.
  apply Forall_snoc; auto. unfold oldlab_wf; simpl. rewrite C. reflexivity.
Qed.

Lemma INSERT_consultation_keeps k text now :
  stmt_keeps WellFormed (AddTasks.INSERT_consultation k text now).
Proof.
  intros t t' [] E. injection E as <-. constructor; simpl; auto.
  apply Forall_snoc; auto.
Qed.

Lemma INSERT_oldconsultation_keeps k text now :
  stmt_keeps WellFormed (AddTasks.INSERT_oldconsultation k text now).
Proof.
  intros t t' [] E. injection E as <-. constructor; simpl; auto.
  apply Forall_snoc; auto.
Qed.

Lemma payload_lab_set lt ls it is_ ty v :
  payload_exclusive lt ls it is_ = true -> lt = Some ty ->
  payload_exclusive lt (Some v) it is_ = true.
Proof. intros H ->. destruct ls, it, is_; simpl in *; congruence. Qed.

Lemma payload_imaging_set lt ls it is_ ty v :
  payload_exclusive lt ls it is_ = true -> it = Some ty ->
  payload_exclusive lt ls it (Some v) = true.
Proof. intros H ->. destruct lt, ls, is_; simpl in *; congruence. Qed.

Lemma UPDATE_task_keeps lab sub status key date ty :
  stmt_keeps WellFormed (EditTask.UPDATE_task lab sub status key date ty).
Proof.
  intros t t' [] E. unfold EditTask.UPDATE_task in E. open_stmt E.
  - constructor; auto.
  - constructor; simpl; auto.
    apply Forall_update_where; auto. intros r Hr Hhit.
    split_bools. apply sql_eq_Some in H0.
    unfold task_wf in *. split_bools; auto;
      destruct lab; simpl;
      eauto using payload_lab_set, payload_imaging_set.
Qed.

Lemma UPDATE_oldlab_keeps lab sub key date ty :
  stmt_keeps WellFormed (EditTask.UPDATE_oldlab lab sub key date ty).
Proof.
  intros t t' [] E. injection E as <-. constructor; simpl; auto.
  apply Forall_update_where; auto. intros r Hr Hhit.
  split_bools. apply sql_eq_Some in H0.
  unfold oldlab_wf in *. split_bools; auto;
    destruct lab; simpl;
    eauto using payload_lab_set, payload_imaging_set.
Qed.

Lemma ViewTasks_delete_keeps table key it q :
  ViewTasks.delete_query table key it = Some q -> stmt_keeps WellFormed q.
Proof.
  unfold ViewTasks.delete_query. intros Hq t t' [] E.
  repeat match type of Hq with
  | (if ?c then _ else _) = _ => destruct c
  end; inversion Hq; subst; clear Hq;
  injection E as <-; constructor; simpl; auto using Forall_delete_where.
Qed.

Lemma PendingTasks_delete_keeps ty i q :
  PendingTasks.delete_query ty i = Some q -> stmt_keeps WellFormed q.
Proof.
  unfold PendingTasks.delete_query. intros Hq t t' [] E.
  repeat match type of Hq with
  | (if ?c then _ else _) = _ => destruct c
  end; inversion Hq; subst; clear Hq;
  injection E as <-; constructor; simpl; auto using Forall_delete_where.
Qed.

Lemma task_sent_wf r :
  task_wf r = true -> task_wf (task_set_task_status "sent" r) = true.
Proof. unfold task_wf; simpl. intros H. split_bools; auto. Qed.

Lemma consult_sent_wf r :
  consult_wf r = true -> consult_wf (consult_set_task_status "sent" r) = true.
Proof. unfold consult_wf; simpl. intros H. split_bools; auto. Qed.

Lemma PendingTasks_sent_keeps ty i q :
  PendingTasks.sent_query ty i = Some q -> stmt_keeps WellFormed q.
Proof.
  unfold PendingTasks.sent_query. intros Hq t t' [] E.
  repeat match type of Hq with
  | (if ?c then _ else _) = _ => destruct c
  end; inversion Hq; subst; clear Hq;
  injection E as <-; constructor; simpl; auto;
  apply Forall_update_where; auto using task_sent_wf, consult_sent_wf.
Qed.

(** *** Handler by handler *)

Lemma WellFormed_statements f : app_statement f -> stmt_keeps WellFormed f.
Proof.
  destruct 1;
    eauto using INSERT_patient_keeps, UPDATE_patient_keeps,
      UPDATE_tasks_key_keeps, UPDATE_oldlabs_key_keeps,
      UPDATE_is_discharged_keeps, INSERT_task_lab_keeps,
      INSERT_task_imaging_keeps, INSERT_oldlab_lab_keeps,
      INSERT_oldlab_imaging_keeps, INSERT_consultation_keeps,
      INSERT_oldconsultation_keeps, UPDATE_task_keeps, UPDATE_oldlab_keeps,
      ViewTasks_delete_keeps, PendingTasks_sent_keeps,
      PendingTasks_delete_keeps.
Qed.

(** The payload rule by itself is kept by every statement. *)
Lemma PayloadOk_statements f : app_statement f -> stmt_keeps PayloadOk f.
Proof.
  destruct 1; intros t t' [Ht Ho] E.
  - unfold AddPatient.INSERT_patient in E. open_stmt E. split; auto.
  - unfold EditPatient.UPDATE_patient in E. open_stmt E; split; auto.
  - injection E as <-. split; simpl; auto.
    apply Forall_update_where; auto.
  - injection E as <-. split; simpl; auto.
    apply Forall_update_where; auto.
  - injection E as <-. split; auto.
  - injection E as <-. split; auto.
  - unfold AddTasks.INSERT_task_lab in E. open_stmt E. split; simpl; auto.
    apply Forall_snoc; auto.
  - unfold AddTasks.INSERT_task_imaging in E. open_stmt E.
    split; simpl; auto. apply Forall_snoc; auto.
  - unfold AddTasks.INSERT_oldlab_lab in E. open_stmt E. split; simpl; auto.
    apply Forall_snoc; auto.
  - unfold AddTasks.INSERT_oldlab_imaging in E. open_stmt E.
    split; simpl; auto. apply Forall_snoc; auto.
  - injection E as <-. split; auto.
  - injection E as <-. split; auto.
  - unfold EditTask.UPDATE_task in E. open_stmt E; split; simpl; auto.
    apply Forall_update_where; auto. intros r Hr Hhit.
    split_bools. apply sql_eq_Some in H0. unfold task_payload in *.
    destruct lab; simpl;
      eauto using payload_lab_set, payload_imaging_set.
  - injection E as <-. split; simpl; auto.
    apply Forall_update_where; auto. intros r Hr Hhit.
    split_bools. apply sql_eq_Some in H0. unfold oldlab_payload in *.
    destruct lab; simpl;
      eauto using payload_lab_set, payload_imaging_set.
  - unfold ViewTasks.delete_query in H.
    repeat match type of H with
    | (if ?c then _ else _) = _ => destruct c
    end; inversion H; subst; clear H;
    injection E as <-; split; simpl; auto using Forall_delete_where.
  - unfold PendingTasks.sent_query in H.
    repeat match type of H with
    | (if ?c then _ else _) = _ => destruct c
    end; inversion H; subst; clear H;
    injection E as <-; split; simpl; auto;
    apply Forall_update_where; auto.
  - unfold PendingTasks.delete_query in H.
    repeat match type of H with
    | (if ?c then _ else _) = _ => destruct c
    end; inversion H; subst; clear H;
    injection E as <-; split; simpl; auto using Forall_delete_where.
Qed.

(** Uniqueness of the key by itself is kept by every statement. *)
Lemma UniqueKeys_statements f : app_statement f -> stmt_keeps UniqueKeys f.
Proof.
  unfold UniqueKeys.
  destruct 1; intros t t' Hu E;
    try (injection E as <-; exact Hu).
  - unfold AddPatient.INSERT_patient in E. open_stmt E. split_bools.
    apply negb_true_iff in H0. simpl. apply keys_snoc_NoDup; auto.
  - unfold EditPatient.UPDATE_patient in E. open_stmt E; auto.
    split_bools. simpl. apply nodupb_NoDup; assumption.
  - injection E as <-. simpl. rewrite map_update_where_same; auto.
  - injection E as <-. simpl. rewrite map_update_where_same; auto.
  - unfold AddTasks.INSERT_task_lab in E. open_stmt E. exact Hu.
  - unfold AddTasks.INSERT_task_imaging in E. open_stmt E. exact Hu.
  - unfold AddTasks.INSERT_oldlab_lab in E. open_stmt E. exact Hu.
  - unfold AddTasks.INSERT_oldlab_imaging in E. open_stmt E. exact Hu.
  - unfold EditTask.UPDATE_task in E. open_stmt E; exact Hu.
  - unfold ViewTasks.delete_query in H.
    repeat match type of H with
    | (if ?c then _ else _) = _ => destruct c
    end; inversion H; subst; clear H; injection E as <-; exact Hu.
  - unfold PendingTasks.sent_query in H.
    repeat match type of H with
    | (if ?c then _ else _) = _ => destruct c
    end; inversion H; subst; clear H; injection E as <-; exact Hu.
  - unfold PendingTasks.delete_query in H.
    repeat match type of H with
    | (if ?c then _ else _) = _ => destruct c
    end; inversion H; subst; clear H; injection E as <-; exact Hu.
Qed.

Section AnyInvariant.
Variable I : Tables -> Prop.
Hypothesis statements_keep : forall f, app_statement f -> stmt_keeps I f.

(** Decompose a handler into its calls. *)
Ltac keeps_step :=
  match goal with
  | |- keeps _ (bind _ _) => apply keeps_bind; [|intros]
  | |- keeps _ (try_catch _ _) => apply keeps_try_catch
  | |- keeps _ (ret _) => apply keeps_ret
  | |- keeps _ throw => apply keeps_throw
  | |- keeps _ (alert _ _) => apply keeps_emit
  | |- keeps _ (setError _) => apply keeps_emit
  | |- keeps _ (getAllAsync _) => apply keeps_getAllAsync
  | |- keeps _ (getFirstAsync _) => apply keeps_getFirstAsync
  | |- keeps _ (runAsync BEGIN_TRANSACTION) =>
      apply keeps_runAsync; apply lifted_BEGIN
  | |- keeps _ (runAsync COMMIT) =>
      apply keeps_runAsync; apply lifted_COMMIT
  | |- keeps _ (runAsync ROLLBACK) =>
      apply keeps_runAsync; apply lifted_ROLLBACK
  | |- keeps _ (runAsync (dml _)) =>
      apply keeps_runAsync; intros ? ?; apply lifted_dml;
      apply statements_keep; econstructor; eassumption
  | |- keeps _ (if ?b then _ else _) => destruct b
  | |- keeps _ (match ?x with _ => _ end) => destruct x
  end.

Lemma fetchPatients_keeps v :
  keeps (lifted I) (ReviewPatients.fetchPatients v).
Proof. unfold ReviewPatients.fetchPatients. repeat keeps_step. Qed.

Lemma fetchTasks_keeps k : keeps (lifted I) (ViewTasks.fetchTasks k).
Proof. unfold ViewTasks.fetchTasks. repeat keeps_step. Qed.

Lemma fetchPendingTasks_keeps :
  keeps (lifted I) PendingTasks.fetchPendingTasks.
Proof. unfold PendingTasks.fetchPendingTasks. repeat keeps_step. Qed.

Lemma handler_keeps a : keeps (lifted I) (App.handler a).
Proof.
  destruct a; simpl.
  - unfold AddPatient.handleSubmit. repeat keeps_step.
  - unfold EditPatient.handleUpdate, EditPatient.transaction,
      EditPatient.checkRegistrationNumberExists.
    repeat keeps_step.
  - unfold ReviewPatients.discharge.
    repeat first [apply fetchPatients_keeps | keeps_step].
  - unfold ReviewPatients.reAdmit.
    repeat first [apply fetchPatients_keeps | keeps_step].
  - unfold AddTasks.handleAddLab, AddTasks.guarded. repeat keeps_step.
  - unfold AddTasks.handleAddOldLab, AddTasks.guarded. repeat keeps_step.
  - unfold AddTasks.handleAddImaging, AddTasks.guarded. repeat keeps_step.
  - unfold AddTasks.handleAddOldImaging, AddTasks.guarded.
    repeat keeps_step.
  - unfold AddTasks.handleAddConsultation, AddTasks.guarded.
    repeat keeps_step.
  - unfold AddTasks.handleAddOldConsultation, AddTasks.guarded.
    repeat keeps_step.
  - unfold EditTask.handleSubmit. repeat keeps_step.
  - unfold ViewTasks.deleteItem.
    destruct (ViewTasks.delete_query table registrationNumber item) eqn:Hq;
      repeat first [apply fetchTasks_keeps | keeps_step].
  - unfold PendingTasks.markTaskAsSent.
    destruct (PendingTasks.sent_query taskType identifier) eqn:Hq;
      repeat first [apply fetchPendingTasks_keeps | keeps_step].
  - unfold PendingTasks.deleteTask.
    destruct (PendingTasks.delete_query taskType identifier) eqn:Hq;
      repeat first [apply fetchPendingTasks_keeps | keeps_step].
Qed.

Lemma step_keeps s af : lifted I s -> lifted I (App.step s af).
Proof.
  intros H. unfold App.step, run.
  pose proof (handler_keeps (fst af)
                {| store := s; faults := snd af; ui := [] |} H) as K.
  destruct (App.handler (fst af) _) as [r w]. exact K.
Qed.

Lemma exec_keeps l : forall s, lifted I s -> lifted I (App.exec l s).
Proof.
  unfold App.exec. induction l as [|af l IH]; simpl; intros s H; auto.
  apply IH, step_keeps, H.
Qed.
End AnyInvariant.

Lemma reachable_Good l : Good (App.exec l initial_store).
Proof.
  apply exec_keeps; [exact WellFormed_statements|].
  apply lifted_initial, WellFormed_empty.
Qed.

End Invariant.

#[local] Arguments check_in : simpl never.

(* ================================================================= *)
(** ** The rename of a registration number (editpatient) *)

Module Rename.

Lemma valid_tests p :
  EditPatient_valid p = true ->
  Js.blank (EditPatient.patientName p) = false
  /\ Js.nan_or_nonpositive (EditPatient.age p) = false
  /\ Js.blank (EditPatient.registrationNumber p) = false
  /\ Js.blank (EditPatient.location p) = false
  /\ Js.blank (EditPatient.contact p) = false.
Proof.
  unfold EditPatient_valid. intros V. Invariant.split_bools.
  repeat match goal with
  | H : negb _ = true |- _ => apply negb_true_iff in H
  end.
  auto.
Qed.

Lemma UPDATE_patient_frame p original t t' :
  EditPatient.UPDATE_patient p original t = Some t' ->
  tasks t' = tasks t /\ oldlabs t' = oldlabs t
  /\ consultations t' = consultations t
  /\ oldconsultations t' = oldconsultations t.
Proof.
  unfold EditPatient.UPDATE_patient. intros E. Invariant.open_stmt E; auto.
Qed.



End Rename.



(** C10.  When the lookup of the uniqueness check throws,
    [checkRegistrationNumberExists] answers true; [handleUpdate] on a valid
    form that changes the registration number then reports the number as
    already existing and leaves the connection as it was. *)
Theorem C10_failed_lookup_blocks_the_rename s original p fs u :
  EditPatient_valid p = true ->
  EditPatient.registrationNumber p <> original ->
  fst (EditPatient.checkRegistrationNumberExists original
         (EditPatient.registrationNumber p)
         {| store := s; faults := true :: fs; ui := u |}) = Ok true
  /\ run (EditPatient.handleUpdate original (Some p)) (true :: fs) s
     = (s, [SetError (Some "Registration number already exists.")]).
Proof.
  intros V N. split; [reflexivity|].
  destruct (Rename.valid_tests p V) as (V1 & V2 & V3 & V4 & V5).
  apply String.eqb_neq in N.
  unfold run, EditPatient.handleUpdate. rewrite V1, V2, V3, V4, V5, N.
  reflexivity.
Qed.

(* ================================================================= *)
(** ** Registration numbers and payloads *)

Module Keys.



Lemma invalid_tests f :
  AddPatient_invalid f = false ->
  AddPatient.some_required_blank f = false
  /\ Js.nan_or_nonpositive (Js.parseInt (AddPatient.age f)) = false
  /\ Js.nan_or_nonpositive (Js.parseInt (AddPatient.bedNumber f)) = false.
Proof.
  unfold AddPatient_invalid. intros H.
  apply orb_false_iff in H. destruct H as [H H3].
  apply orb_false_iff in H. destruct H as [H1 H2]. auto.
Qed.

End Keys.


(** C3.  (1) In every state the application can reach from a new database,
    every row of [tasks] and every row of [oldlabs] has exactly one
    payload: both lab columns set and both imaging columns NULL, or both
    imaging columns set and both lab columns NULL.  (2) Every handler
    keeps that property: run on a connection whose content (and whose
    open-transaction snapshot, if any) has it, under any schedule, it ends
    in a connection that has it. *)
Theorem C3_one_payload_per_row :
  (forall l, PayloadOk (cur (App.exec l initial_store)))
  /\ (forall s af, lifted PayloadOk s -> lifted PayloadOk (App.step s af)).
Proof.
  split.
  - intros l.
    assert (H : lifted PayloadOk (App.exec l initial_store)).
    { apply Invariant.exec_keeps; [exact Invariant.PayloadOk_statements|].
      apply lifted_initial. split; constructor. }
    exact (proj1 H).
  - intros s af. apply Invariant.step_keeps.
    exact Invariant.PayloadOk_statements.
Qed.

(* ================================================================= *)
(** ** Consultations, task status, deletion *)

Module Consult.




End Consult.


Module Status.


Lemma sql_eq_param_refl v : sql_eq_param (Some v) (Some v) = true.
Proof. simpl. apply String.eqb_refl. Qed.



End Status.


Module Delete.

Lemma fetchTasks_store k w : store (snd (ViewTasks.fetchTasks k w)) = store w.
Proof.
  destruct (ViewTasks.fetchTasks k w) as [r w'] eqn:H.
  unfold ViewTasks.fetchTasks in H.
  repeat inv_m; reflexivity.
Qed.

Lemma not_In_delete_where {R} (p : R -> bool) rows r :
  p r = true -> ~ In r (delete_where p rows).
Proof.
  unfold delete_where. intros Hp Hin. apply filter_In in Hin.
  destruct Hin as [_ Hn]. rewrite Hp in Hn. discriminate.
Qed.

End Delete.


(* ================================================================= *)
(** ** Discharge and re-admission; validation of the add form *)

Module Discharge.

Lemma fetchPatients_store v w :
  store (snd (ReviewPatients.fetchPatients v w)) = store w.
Proof.
  destruct (ReviewPatients.fetchPatients v w) as [r w'] eqn:H.
  unfold ReviewPatients.fetchPatients in H.
  repeat inv_m; reflexivity.
Qed.

Lemma discharge_store key fs s :
  hd false fs = false ->
  fst (run (ReviewPatients.discharge key) fs s) = discharged_to 1 key s.
Proof.
  intros Hf. unfold run.
  destruct (ReviewPatients.discharge key _) as [r w] eqn:H. simpl.
  unfold ReviewPatients.discharge in H.
  apply try_catch_inv in H.
  destruct H as [(a & w1 & Hb & Hr) | (w1 & Hb & Hr)].
  - inversion Hr; subst; clear Hr.
    repeat (apply bind_inv_Ok in Hb; destruct Hb as (? & ? & ? & Hb)).
    repeat inv_m. inv_stmt.
    match goal with
    | H : ReviewPatients.UPDATE_is_discharged _ _ _ = Some _ |- _ =>
        injection H as <-
    end.
    match type of Hb with
    | ReviewPatients.fetchPatients ?v ?w0 = _ =>
        pose proof (fetchPatients_store v w0) as Hst; rewrite Hb in Hst
    end.
    simpl in Hst. rewrite Hst. reflexivity.
  - exfalso. apply bind_inv_Throw in Hb.
    destruct Hb as [Hb | (u & w2 & Hrun & Hb)].
    + unfold runAsync, db_call in Hb. simpl in Hb.
      destruct fs as [|[|] fs]; simpl in *; discriminate.
    + repeat (apply bind_inv_Throw in Hb;
              destruct Hb as [Hb | (? & ? & ? & Hb)]);
        try (apply emit_inv in Hb; destruct Hb; discriminate).
      unfold ReviewPatients.fetchPatients, try_catch, bind in Hb.
      repeat match type of Hb with
      | context [match ?x with _ => _ end] => destruct x
      end; discriminate.
Qed.

Lemma reAdmit_store key fs s :
  hd false fs = false ->
  fst (run (ReviewPatients.reAdmit key) fs s) = discharged_to 0 key s.
Proof.
  intros Hf. unfold run.
  destruct (ReviewPatients.reAdmit key _) as [r w] eqn:H. simpl.
  unfold ReviewPatients.reAdmit in H.
  apply try_catch_inv in H.
  destruct H as [(a & w1 & Hb & Hr) | (w1 & Hb & Hr)].
  - inversion Hr; subst; clear Hr.
    repeat (apply bind_inv_Ok in Hb; destruct Hb as (? & ? & ? & Hb)).
    repeat inv_m. inv_stmt.
    match goal with
    | H : ReviewPatients.UPDATE_is_discharged _ _ _ = Some _ |- _ =>
        injection H as <-
    end.
    match type of Hb with
    | ReviewPatients.fetchPatients ?v ?w0 = _ =>
        pose proof (fetchPatients_store v w0) as Hst; rewrite Hb in Hst
    end.
    simpl in Hst. rewrite Hst. reflexivity.
  - exfalso. apply bind_inv_Throw in Hb.
    destruct Hb as [Hb | (u & w2 & Hrun & Hb)].
    + unfold runAsync, db_call in Hb. simpl in Hb.
      destruct fs as [|[|] fs]; simpl in *; discriminate.
    + repeat (apply bind_inv_Throw in Hb;
              destruct Hb as [Hb | (? & ? & ? & Hb)]);
        try (apply emit_inv in Hb; destruct Hb; discriminate).
      unfold ReviewPatients.fetchPatients, try_catch, bind in Hb.
      repeat match type of Hb with
      | context [match ?x with _ => _ end] => destruct x
      end; discriminate.
Qed.

Lemma update_twice key v v' rows :
  update_where (fun r => (p_registrationNumber r =? key)%string)
    (patient_set_is_discharged v')
    (update_where (fun r => (p_registrationNumber r =? key)%string)
       (patient_set_is_discharged v) rows)
  = update_where (fun r => (p_registrationNumber r =? key)%string)
      (patient_set_is_discharged v') rows.
Proof.
  unfold update_where. rewrite map_map. apply map_ext. intros r.
  destruct (p_registrationNumber r =? key)%string eqn:E; simpl;
    rewrite E; reflexivity.
Qed.

Lemma after_after key v v' s : discharged_to v' key (discharged_to v key s) = discharged_to v' key s.
Proof.
  unfold discharged_to. simpl. rewrite update_twice. reflexivity.
Qed.

Lemma after_rows key v rows :
  Forall2 (fun r r' =>
             same_but_discharged r r'
             /\ (p_registrationNumber r = key -> p_is_discharged r' = v)
             /\ (p_registrationNumber r <> key -> r' = r))
    rows
    (update_where (fun r => (p_registrationNumber r =? key)%string)
       (patient_set_is_discharged v) rows).
Proof.
  induction rows as [|r rows IH]; simpl; constructor; auto.
  destruct (String.eqb_spec (p_registrationNumber r) key);
    unfold same_but_discharged; simpl; intuition congruence.
Qed.

End Discharge.

(** C9.  When the UPDATE of the handler is carried out: discharging twice
    leaves the connection as discharging once does; re-admitting and then
    discharging leaves it as discharging alone does; after a re-admission
    every row of that registration number has [is_discharged = 0] (after a
    discharge, 1), whatever it was before; each row of [patients] keeps
    every other column, rows of other registration numbers are as before,
    and the other four tables are as before. *)
Theorem C9_discharge_and_readmit_are_idempotent s key fs1 fs2 :
  hd false fs1 = false -> hd false fs2 = false ->
  let D fs x := fst (run (ReviewPatients.discharge key) fs x) in
  let R fs x := fst (run (ReviewPatients.reAdmit key) fs x) in
  D fs2 (D fs1 s) = D fs1 s
  /\ R fs2 (R fs1 s) = R fs1 s
  /\ D fs2 (R fs1 s) = D fs2 s
  /\ Forall2 (fun r r' =>
                same_but_discharged r r'
                /\ (p_registrationNumber r = key -> p_is_discharged r' = 1)
                /\ (p_registrationNumber r <> key -> r' = r))
       (patients (cur s)) (patients (cur (D fs1 s)))
  /\ Forall2 (fun r r' =>
                same_but_discharged r r'
                /\ (p_registrationNumber r = key -> p_is_discharged r' = 0)
                /\ (p_registrationNumber r <> key -> r' = r))
       (patients (cur s)) (patients (cur (R fs1 s)))
  /\ (forall x, x = D fs1 s \/ x = R fs1 s ->
        tasks (cur x) = tasks (cur s)
        /\ oldlabs (cur x) = oldlabs (cur s)
        /\ consultations (cur x) = consultations (cur s)
        /\ oldconsultations (cur x) = oldconsultations (cur s)
        /\ saved x = saved s).
Proof.
  intros H1 H2. cbv beta zeta.
  repeat first [ rewrite Discharge.discharge_store by assumption
               | rewrite Discharge.reAdmit_store by assumption ].
  rewrite !Discharge.after_after.
  repeat split; try apply Discharge.after_rows;
    destruct H as [-> | ->]; reflexivity.
Qed.


(* ================================================================= *)
(** ** The theorems on the sample data *)




(** C3 on the ward: deleting the imaging order keeps the payload rule. *)
Lemma C3_witness :
  lifted PayloadOk
    (App.step Samples.ward
       (App.ViewTasks_deleteItem "R100" "tasks" Samples.chest_ct, [])).
Proof.
  destruct C3_one_payload_per_row as (Hreach & Hstep).
  apply Hstep. split.
  - apply (Hreach
      [ (App.AddPatient_handleSubmit true "2024-01-01" Samples.jane, []);
        (App.AddTasks_handleAddLab true true "R100" "blood" "CBC"
           Samples.t0, []);
        (App.AddTasks_handleAddImaging true true "R100" "CT" "Chest"
           Samples.t0, []);
        (App.AddTasks_handleAddConsultation true true "R100" "Cardiology"
           Samples.t0, []) ]).
  - intros t E. vm_compute in E. discriminate E.
Defined.







(** C9 on the ward: discharging Jane twice is discharging her once. *)
Lemma C9_witness :
  fst (run (ReviewPatients.discharge "R100") []
         (fst (run (ReviewPatients.discharge "R100") [] Samples.ward)))
  = fst (run (ReviewPatients.discharge "R100") [] Samples.ward).
Proof.
  destruct (C9_discharge_and_readmit_are_idempotent Samples.ward "R100"
              [] [])
    as (H & _); [reflexivity | reflexivity |].
  exact H.
Defined.

(** C10 on the ward: the rename is refused when the lookup fails. *)
Lemma C10_witness :
  run (EditPatient.handleUpdate "R100" (Some Samples.jane_as_R200)) [true]
      Samples.ward
  = (Samples.ward, [SetError (Some "Registration number already exists.")]).
Proof.
  destruct (C10_failed_lookup_blocks_the_rename Samples.ward "R100"
              Samples.jane_as_R200 [] [])
    as (_ & H); [reflexivity | discriminate |].
  exact H.
Defined.

(* ================================================================= *)
(** ** More on the rename *)

Module RenameFacts.

Lemma ROLLBACK_inv s s' :
  ROLLBACK s = Some s' ->
  exists t, saved s = Some t /\ s' = {| cur := t; saved := None |}.
Proof.
  unfold ROLLBACK. destruct (saved s); intros H; inversion H; eauto.
Qed.

Lemma runAsync_inv_Throw st w w' :
  runAsync st w = (Throw, w') ->
  w' = tick w /\ (hd false (faults w) = true \/ st (store w) = None).
Proof.
  unfold runAsync, db_call, tick.
  destruct (faults w) as [|[|] fs]; simpl;
    try (intros H; inversion H; auto; fail);
    destruct (st (store w)); intros H; inversion H; auto.
Qed.

Lemma store_eta (s : Store) : {| cur := cur s; saved := saved s |} = s.
Proof. destruct s; reflexivity. Qed.

(** Reading a run backwards, keeping the reason of each failed call. *)
Ltac inv_why :=
  match goal with
  | H : runAsync _ _ = (Throw, _) |- _ =>
      apply runAsync_inv_Throw in H; destruct H as (? & [H | H]); subst
  | _ => inv_m
  end.

End RenameFacts.

(** X1.  Without failures of the environment, [handleUpdate] on a connection
    with no open transaction is all or nothing: it ends with no open
    transaction, and either it reports success or the connection is exactly
    what it was.  This covers the statements SQLite itself rejects, such as
    an UPDATE of [patients] with the gender picker left on its placeholder. *)
Theorem handleUpdate_all_or_nothing s original patient :
  saved s = None ->
  let r := run (EditPatient.handleUpdate original patient) [] s in
  saved (fst r) = None
  /\ (In (Alert "Success" "Patient details updated successfully.") (snd r)
      \/ fst r = s).
Proof.
  intros Hs. cbv zeta. unfold run.
  destruct (EditPatient.handleUpdate original patient _) as [r w] eqn:Hh.
  simpl. unfold EditPatient.handleUpdate in Hh.
  destruct patient as [p|]; [|inversion Hh; subst; simpl; auto].
  unfold EditPatient.transaction,
    EditPatient.checkRegistrationNumberExists in Hh.
  repeat RenameFacts.inv_why; simpl in *; auto; try discriminate;
    repeat inv_stmt; simpl in *; auto;
    try (split; [reflexivity | left; auto]);
    try congruence.
  all: try (match goal with
       | H : ROLLBACK _ = Some _ |- _ =>
           apply RenameFacts.ROLLBACK_inv in H; simpl in H;
           destruct H as (t & Ht & ->); simpl; inversion Ht; subst;
           split; [reflexivity
                  | right; rewrite <- Hs; apply RenameFacts.store_eta]
       end).
  all: try (match goal with
       | H : BEGIN_TRANSACTION _ = None |- _ =>
           unfold BEGIN_TRANSACTION in H; rewrite Hs in H; discriminate H
       | H : ROLLBACK _ = None |- _ => discriminate H
       | H : COMMIT _ = None |- _ => discriminate H
       end).
Qed.

Module RenameMore.

Lemma update_where_none {R} (p : R -> bool) f rows :
  existsb p rows = false -> update_where p f rows = rows.
Proof.
  unfold update_where. induction rows as [|r rows IH]; simpl; auto.
  intros H. apply orb_false_iff in H. destruct H as [Hr Hrows].
  rewrite Hr, IH; auto.
Qed.

Lemma UPDATE_patient_patients p original t t' :
  EditPatient.UPDATE_patient p original t = Some t' ->
  patients t'
  = update_where (fun r => (p_registrationNumber r =? original)%string)
      (EditPatient.set_columns p) (patients t).
Proof.
  unfold EditPatient.UPDATE_patient. intros E. Invariant.open_stmt E.
  - apply negb_true_iff in C. rewrite update_where_none; auto.
  - reflexivity.
Qed.

(** What a run that reported success went through. *)
Lemma success_inv s original p fs s' ui :
  run (EditPatient.handleUpdate original (Some p)) fs s = (s', ui) ->
  In (Alert "Success" "Patient details updated successfully.") ui ->
  saved s = None
  /\ exists t1 t2,
       EditPatient.UPDATE_patient p original (cur s) = Some t1
       /\ s' = {| cur := t2; saved := None |}
       /\ ((EditPatient.registrationNumber p = original /\ t2 = t1)
           \/ (EditPatient.registrationNumber p <> original
               /\ EditPatient.SELECT_other_patient
                    (EditPatient.registrationNumber p) original (cur s) = []
               /\ exists t',
                    EditPatient.UPDATE_tasks_key
                      (EditPatient.registrationNumber p) original t1 = Some t'
                    /\ EditPatient.UPDATE_oldlabs_key
                         (EditPatient.registrationNumber p) original t'
                       = Some t2)).
Proof.
  unfold run. intros H Hin.
  destruct (EditPatient.handleUpdate _ _ _) as [r w] eqn:Hh.
  injection H as <- <-.
  unfold EditPatient.handleUpdate, EditPatient.transaction,
    EditPatient.checkRegistrationNumberExists in Hh.
  repeat inv_m; simpl in *; try (intuition discriminate);
    repeat inv_stmt; simpl in *.
  - apply negb_true_iff, String.eqb_neq in Heqb4.
    split; auto. do 2 eexists. split; [eassumption|].
    split; [reflexivity|]. right. split; auto. split.
    + destruct (EditPatient.SELECT_other_patient _ _ _);
        [reflexivity|discriminate].
    + eexists. split; eassumption.
  - apply negb_false_iff, String.eqb_eq in Heqb4.
    split; auto. do 2 eexists. split; [eassumption|].
    split; [reflexivity|]. left. auto.
Qed.

Lemma rekeyed_keys original p rows :
  EditPatient.registrationNumber p <> original ->
  ~ In original
      (map p_registrationNumber
         (update_where (fun r => (p_registrationNumber r =? original)%string)
            (EditPatient.set_columns p) rows)).
Proof.
  intros N Hin. apply in_map_iff in Hin. destruct Hin as [r [Hk Hr]].
  unfold update_where in Hr. apply in_map_iff in Hr.
  destruct Hr as [r0 [<- _]].
  destruct (String.eqb_spec (p_registrationNumber r0) original);
    simpl in Hk; congruence.
Qed.

Lemma join_row_has_patient {R} (key : R -> string) cond rows ps x :
  In x (PendingTasks.join_patients key cond rows ps) ->
  In (key (PendingTasks.row x)) (map p_registrationNumber ps).
Proof.
  unfold PendingTasks.join_patients. intros H.
  apply in_flat_map in H. destruct H as [r [_ H]].
  destruct (cond r); [|contradiction].
  apply in_map_iff in H. destruct H as [q [<- Hq]]. simpl.
  unfold select_where in Hq. apply filter_In in Hq. destruct Hq as [Hq E].
  apply String.eqb_eq in E. rewrite E. apply in_map. exact Hq.
Qed.

Lemma listing_follows_key {I} (item : TaskRow -> I) (keep : TaskRow -> bool)
    old new rows :
  (forall v r, item (task_set_registrationNumber v r) = item r) ->
  (forall v r, keep (task_set_registrationNumber v r) = keep r) ->
  ~ In new (map t_registrationNumber rows) ->
  map item
    (select_where
       (fun r => (t_registrationNumber r =? new)%string && keep r)
       (update_where (fun r => (t_registrationNumber r =? old)%string)
          (task_set_registrationNumber new) rows))
  = map item
      (select_where
         (fun r => (t_registrationNumber r =? old)%string && keep r) rows).
Proof.
  intros Hitem Hkeep. unfold select_where, update_where.
  induction rows as [|r rows IH]; simpl; intros Hnew; auto.
  assert (Hr : t_registrationNumber r <> new) by tauto.
  assert (Hrows : ~ In new (map t_registrationNumber rows)) by tauto.
  specialize (IH Hrows).
  destruct (String.eqb_spec (t_registrationNumber r) old) as [E|E]; simpl.
  - rewrite String.eqb_refl, Hkeep. simpl.
    destruct (keep r); simpl; rewrite ?Hitem, IH; reflexivity.
  - apply String.eqb_neq in Hr. rewrite Hr. simpl. exact IH.
Qed.

Lemma old_listing_follows_key {I} (item : OldLabRow -> I)
    (keep : OldLabRow -> bool) old new rows :
  (forall v r, item (oldlab_set_registrationNumber v r) = item r) ->
  (forall v r, keep (oldlab_set_registrationNumber v r) = keep r) ->
  ~ In new (map o_registrationNumber rows) ->
  map item
    (select_where
       (fun r => (o_registrationNumber r =? new)%string && keep r)
       (update_where (fun r => (o_registrationNumber r =? old)%string)
          (oldlab_set_registrationNumber new) rows))
  = map item
      (select_where
         (fun r => (o_registrationNumber r =? old)%string && keep r) rows).
Proof.
  intros Hitem Hkeep. unfold select_where, update_where.
  induction rows as [|r rows IH]; simpl; intros Hnew; auto.
  assert (Hr : o_registrationNumber r <> new) by tauto.
  assert (Hrows : ~ In new (map o_registrationNumber rows)) by tauto.
  specialize (IH Hrows).
  destruct (String.eqb_spec (o_registrationNumber r) old) as [E|E]; simpl.
  - rewrite String.eqb_refl, Hkeep. simpl.
    destruct (keep r); simpl; rewrite ?Hitem, IH; reflexivity.
  - apply String.eqb_neq in Hr. rewrite Hr. simpl. exact IH.
Qed.

Lemma select_and {R} (p q r : R -> bool) rows :
  select_where (fun x => p x && q x && r x) rows
  = select_where (fun x => p x && (q x && r x)) rows.
Proof.
  unfold select_where. apply filter_ext. intros x.
  rewrite andb_assoc. reflexivity.
Qed.

End RenameMore.

(** X3.  After a rename that reported success the consultations of the patient
    are cut off: the rows of [consultations] and [oldconsultations] that
    held the original number still hold it, no row of [patients] holds it
    any more, and so none of these rows is on the pending lists, which
    join each row with its patient. *)
Theorem rename_orphans_consultations s original p fs s' ui :
  run (EditPatient.handleUpdate original (Some p)) fs s = (s', ui) ->
  In (Alert "Success" "Patient details updated successfully.") ui ->
  EditPatient.registrationNumber p <> original ->
  consultations (cur s') = consultations (cur s)
  /\ oldconsultations (cur s') = oldconsultations (cur s)
  /\ ~ In original (map p_registrationNumber (patients (cur s')))
  /\ (forall x,
        In x (PendingTasks.pending_consultations (cur s'))
        \/ In x (PendingTasks.pending_oldconsultations (cur s')) ->
        c_registrationNumber (PendingTasks.row x) <> original).
Proof.
  intros H Hin N.
  destruct (RenameMore.success_inv _ _ _ _ _ _ H Hin)
    as (Hs & t1 & t2 & Hup & -> & [[E _] | (_ & _ & t' & Ht & Ho)]);
    [contradiction|].
  pose proof (RenameMore.UPDATE_patient_patients _ _ _ _ Hup) as Hp.
  apply Rename.UPDATE_patient_frame in Hup.
  destruct Hup as (_ & _ & Hc & Hoc).
  injection Ht as <-. injection Ho as <-. simpl.
  assert (Hno : ~ In original (map p_registrationNumber (patients t1))).
  { rewrite Hp. apply RenameMore.rekeyed_keys. exact N. }
  repeat split; auto.
  intros x [Hx | Hx] E;
    apply RenameMore.join_row_has_patient in Hx; simpl in Hx;
    rewrite E in Hx; contradiction.
Qed.

(** X4.  After a rename that reported success the orders of the patient are
    found under the new number: when no row of [tasks] and of [oldlabs]
    held the new number before, the four lists [fetchTasks] reads for the
    new number are the lists it read for the original number before. *)
Theorem rename_keeps_the_task_lists s original p fs s' ui :
  run (EditPatient.handleUpdate original (Some p)) fs s = (s', ui) ->
  In (Alert "Success" "Patient details updated successfully.") ui ->
  let new := EditPatient.registrationNumber p in
  ~ In new (map t_registrationNumber (tasks (cur s))) ->
  ~ In new (map o_registrationNumber (oldlabs (cur s))) ->
  ViewTasks.SELECT_currentLabs new (cur s')
  = ViewTasks.SELECT_currentLabs original (cur s)
  /\ ViewTasks.SELECT_currentImaging new (cur s')
     = ViewTasks.SELECT_currentImaging original (cur s)
  /\ ViewTasks.SELECT_oldLabs new (cur s')
     = ViewTasks.SELECT_oldLabs original (cur s)
  /\ ViewTasks.SELECT_oldImaging new (cur s')
     = ViewTasks.SELECT_oldImaging original (cur s).
Proof.
  intros H Hin new Ht Ho.
  destruct (RenameMore.success_inv _ _ _ _ _ _ H Hin)
    as (Hs & t1 & t2 & Hup & -> & [[E ->] | (N & _ & t' & Ht' & Ho')]).
  - apply Rename.UPDATE_patient_frame in Hup.
    destruct Hup as (Hta & Hol & _ & _).
    unfold ViewTasks.SELECT_currentLabs, ViewTasks.SELECT_currentImaging,
      ViewTasks.SELECT_oldLabs, ViewTasks.SELECT_oldImaging.
    simpl. subst new. rewrite Hta, Hol, E. auto.
  - apply Rename.UPDATE_patient_frame in Hup.
    destruct Hup as (Hta & Hol & _ & _).
    injection Ht' as <-. injection Ho' as <-.
    unfold ViewTasks.SELECT_currentLabs, ViewTasks.SELECT_currentImaging,
      ViewTasks.SELECT_oldLabs, ViewTasks.SELECT_oldImaging.
    simpl. rewrite Hta, Hol. rewrite !RenameMore.select_and.
    repeat split.
    + apply (RenameMore.listing_follows_key ViewTasks.lab_item_of_task
               (fun r => not_null (t_lab_type r)
                         && not_null (t_lab_subtype r))); auto.
    + apply (RenameMore.listing_follows_key ViewTasks.imaging_item_of_task
               (fun r => not_null (t_imaging_type r)
                         && not_null (t_imaging_subtype r))); auto.
    + apply (RenameMore.old_listing_follows_key ViewTasks.lab_item_of_oldlab
               (fun r => not_null (o_lab_type r)
                         && not_null (o_lab_subtype r))); auto.
    + apply (RenameMore.old_listing_follows_key
               ViewTasks.imaging_item_of_oldlab
               (fun r => not_null (o_imaging_type r)
                         && not_null (o_imaging_subtype r))); auto.
Qed.

Module RenameOk.




End RenameOk.


(* ================================================================= *)
(** ** More on deleting, editing and sending *)

Module Work.

Lemma fetchPendingTasks_store w :
  store (snd (PendingTasks.fetchPendingTasks w)) = store w.
Proof.
  destruct (PendingTasks.fetchPendingTasks w) as [r w'] eqn:H.
  unfold PendingTasks.fetchPendingTasks in H.
  repeat inv_m; reflexivity.
Qed.

Lemma fetchTasks_Ok k w : exists l, fst (ViewTasks.fetchTasks k w) = Ok l.
Proof.
  destruct (ViewTasks.fetchTasks k w) as [r w'] eqn:H.
  unfold ViewTasks.fetchTasks in H.
  repeat inv_m; simpl; eauto; discriminate.
Qed.

Lemma fetchPendingTasks_Ok w : fst (PendingTasks.fetchPendingTasks w) = Ok tt.
Proof.
  destruct (PendingTasks.fetchPendingTasks w) as [r w'] eqn:H.
  unfold PendingTasks.fetchPendingTasks in H.
  repeat inv_m; simpl; try discriminate;
    repeat match goal with u : unit |- _ => destruct u end; reflexivity.
Qed.

(** What a [deleteItem] that reported success did. *)
Lemma deleteItem_success_inv key table it fs s s' ui :
  run (ViewTasks.deleteItem key table it) fs s = (s', ui) ->
  In (Alert "Success" "Item deleted successfully.") ui ->
  exists q t',
    ViewTasks.delete_query table key it = Some q
    /\ q (cur s) = Some t'
    /\ s' = {| cur := t'; saved := saved s |}.
Proof.
  intros H Hin. unfold run in H.
  destruct (ViewTasks.deleteItem key table it _) as [r0 w] eqn:Hh.
  injection H as <- <-.
  unfold ViewTasks.deleteItem in Hh.
  apply try_catch_inv in Hh.
  destruct Hh as [(a & w1 & Hb & Hr) | (w1 & Hb & Hr)].
  - inversion Hr; subst; clear Hr.
    destruct (ViewTasks.delete_query table key it) as [q|] eqn:Hq;
      [|discriminate Hb].
    apply bind_inv_Ok in Hb. destruct Hb as (u & w2 & Hrun & Hb).
    apply runAsync_inv_Ok in Hrun. destruct Hrun as (_ & s2 & Hq2 & ->).
    apply dml_inv in Hq2. destruct Hq2 as (t2 & Ht2 & ->).
    apply bind_inv_Ok in Hb. destruct Hb as (u2 & w3 & Hal & Hb).
    apply emit_inv in Hal. destruct Hal as [_ ->].
    apply bind_inv_Ok in Hb. destruct Hb as (l & w4 & Hf & Hb).
    inversion Hb; subst; clear Hb.
    match type of Hf with
    | ViewTasks.fetchTasks ?k ?w0 = _ =>
        pose proof (Delete.fetchTasks_store k w0) as Hst;
        rewrite Hf in Hst
    end.
    simpl in Hst. rewrite Hst. eauto.
  - exfalso.
    assert (Hui : ui w1 = []).
    { destruct (ViewTasks.delete_query table key it) as [q|];
        [|inversion Hb; reflexivity].
      apply bind_inv_Throw in Hb.
      destruct Hb as [Hb | (u & w2 & Hrun & Hb)].
      - apply db_call_inv_Throw in Hb. subst. reflexivity.
      - apply runAsync_inv_Ok in Hrun. destruct Hrun as (_ & s2 & _ & ->).
        apply bind_inv_Throw in Hb.
        destruct Hb as [Hb | (u2 & w3 & Hal & Hb)].
        + apply emit_inv in Hb. destruct Hb; discriminate.
        + apply emit_inv in Hal. destruct Hal as [_ ->].
          apply bind_inv_Throw in Hb.
          destruct Hb as [Hb | (l & w4 & Hf & Hb)]; [|discriminate Hb].
          match type of Hb with
          | ViewTasks.fetchTasks ?k ?w0 = _ =>
              destruct (fetchTasks_Ok k w0) as [l Hl]; rewrite Hb in Hl
          end.
          discriminate Hl. }
    symmetry in Hr. apply emit_inv in Hr. destruct Hr as [_ ->].
    simpl in Hin. rewrite Hui in Hin. simpl in Hin.
    destruct Hin as [Hin|[]]. discriminate Hin.
Qed.

Lemma lab_and_imaging_types_are_disjoint ty :
  check_in LAB_TYPES ty = true -> check_in IMAGING_TYPES ty = true -> False.
Proof.
  unfold check_in, Js.array_includes, LAB_TYPES, IMAGING_TYPES. simpl.
  rewrite !orb_false_r, !orb_true_iff, !String.eqb_eq.
  intros [ -> | [ -> | -> ] ]; intros [H|[H|[H|H]]]; discriminate H.
Qed.

Lemma In_delete_where {R} (p : R -> bool) rows r :
  In r rows -> p r = false -> In r (delete_where p rows).
Proof.
  intros Hin Hp. unfold delete_where. apply filter_In. split; auto.
  rewrite Hp. reflexivity.
Qed.

End Work.

(** X5.  The two kinds of order never mix in a reachable store.  For an item
    that [fetchTasks] lists under Current Labs (under Current Imaging),
    every row of [tasks] the DELETE of [deleteItem] matches holds the item
    in its lab columns (imaging columns) and has NULL imaging columns (lab
    columns): the branch of the OR written for the other kind matches
    nothing, because the CHECK constraints keep the two sets of type names
    apart.  The same holds for [oldlabs]. *)
Theorem listed_item_matches_rows_of_its_own_kind l key it :
  let t := cur (App.exec l initial_store) in
  (In it (ViewTasks.SELECT_currentLabs key t) ->
   forall r, In r (tasks t) -> ViewTasks.task_hit key it r = true ->
     t_lab_type r = ViewTasks.type it
     /\ t_lab_subtype r = ViewTasks.subtype it
     /\ t_imaging_type r = None /\ t_imaging_subtype r = None)
  /\ (In it (ViewTasks.SELECT_currentImaging key t) ->
      forall r, In r (tasks t) -> ViewTasks.task_hit key it r = true ->
        t_imaging_type r = ViewTasks.type it
        /\ t_imaging_subtype r = ViewTasks.subtype it
        /\ t_lab_type r = None /\ t_lab_subtype r = None)
  /\ (In it (ViewTasks.SELECT_oldLabs key t) ->
      forall r, In r (oldlabs t) -> ViewTasks.oldlab_hit key it r = true ->
        o_lab_type r = ViewTasks.type it
        /\ o_lab_subtype r = ViewTasks.subtype it
        /\ o_imaging_type r = None /\ o_imaging_subtype r = None)
  /\ (In it (ViewTasks.SELECT_oldImaging key t) ->
      forall r, In r (oldlabs t) -> ViewTasks.oldlab_hit key it r = true ->
        o_imaging_type r = ViewTasks.type it
        /\ o_imaging_subtype r = ViewTasks.subtype it
        /\ o_lab_type r = None /\ o_lab_subtype r = None).
Proof.
  cbv zeta.
  destruct (Invariant.reachable_Good l) as [[_ _ Ht Ho _ _] _].
  rewrite Forall_forall in Ht, Ho.
  split; [|split; [|split]].
  all: intros Hit r Hr Hhit.
  all: apply in_map_iff in Hit; destruct Hit as [r0 [<- Hr0]].
  all: unfold select_where in Hr0; apply filter_In in Hr0.
  all: destruct Hr0 as [Hr0 Hsel].
  all: try (pose proof (Ht _ Hr) as W; pose proof (Ht _ Hr0) as W0;
            unfold task_wf in W, W0; unfold ViewTasks.task_hit in Hhit).
  all: try (pose proof (Ho _ Hr) as W; pose proof (Ho _ Hr0) as W0;
            unfold oldlab_wf in W, W0; unfold ViewTasks.oldlab_hit in Hhit).
  all: unfold ViewTasks.either_payload in Hhit; simpl in Hhit.
  all: Invariant.split_bools.
  all: match goal with
       | H : (_ || _)%bool = true |- _ =>
           apply orb_true_iff in H; destruct H as [H|H];
           apply andb_true_iff in H; destruct H as [Hty Hsub];
           apply Invariant.sql_eq_param_Some in Hty;
           apply Invariant.sql_eq_param_Some in Hsub;
           destruct Hty as (ty & Hty & Hty0);
           destruct Hsub as (sub & Hsub & Hsub0)
       end.
  all: simpl.
  all: try (rewrite Hty, Hsub, Hty0, Hsub0;
            match goal with
            | H : payload_exclusive _ _ _ _ = true |- _ =>
                rewrite Hty, Hsub in H
            end).
  all: repeat match goal with
       | H : payload_exclusive (Some _) (Some _) ?a ?b = true |- _ =>
           destruct a, b; simpl in H; try discriminate H; clear H
       | H : payload_exclusive ?a ?b (Some _) (Some _) = true |- _ =>
           destruct a, b; simpl in H; try discriminate H; clear H
       end.
  all: auto.
  all: exfalso.
  all: repeat match goal with
       | H : check_in_null _ ?x = true, E : ?x = Some _ |- _ =>
           rewrite E in H; simpl in H
       end.
  all: eauto using Work.lab_and_imaging_types_are_disjoint.
Qed.

(** X6.  What a delete leaves alone.  Whenever [deleteItem] on [tasks] reports
    success, the rows of [tasks] afterwards are rows it held before, every
    row of another registration number or another timestamp is still
    there, the other four tables and an open transaction are as before,
    and an item with a timestamp is no longer in the list [fetchTasks]
    reads for Current Labs. *)
Theorem deleteItem_frame key it fs s s' ui :
  run (ViewTasks.deleteItem key "tasks" it) fs s = (s', ui) ->
  In (Alert "Success" "Item deleted successfully.") ui ->
  incl (tasks (cur s')) (tasks (cur s))
  /\ (forall r, In r (tasks (cur s)) ->
        t_registrationNumber r <> key
        \/ t_date_and_time r <> ViewTasks.dateTime it ->
        In r (tasks (cur s')))
  /\ patients (cur s') = patients (cur s)
  /\ oldlabs (cur s') = oldlabs (cur s)
  /\ consultations (cur s') = consultations (cur s)
  /\ oldconsultations (cur s') = oldconsultations (cur s)
  /\ saved s' = saved s
  /\ (ViewTasks.dateTime it <> None ->
      ~ In it (ViewTasks.SELECT_currentLabs key (cur s'))).
Proof.
  intros H Hin.
  destruct (Work.deleteItem_success_inv _ _ _ _ _ _ _ H Hin)
    as (q & t' & Hq & Ht' & ->).
  unfold ViewTasks.delete_query in Hq. simpl in Hq. injection Hq as <-.
  injection Ht' as <-. simpl. repeat split; auto.
  - intros r Hr. unfold delete_where in Hr. apply filter_In in Hr. tauto.
  - intros r Hr Hother. apply Work.In_delete_where; auto.
    unfold ViewTasks.task_hit.
    destruct (String.eqb_spec (t_registrationNumber r) key) as [E|E];
      simpl; auto.
    destruct Hother as [Hk|Hd]; [contradiction|].
    destruct (sql_eq_param (t_date_and_time r) (ViewTasks.dateTime it))
      eqn:Ed; simpl; auto.
    apply Invariant.sql_eq_param_Some in Ed. destruct Ed as (v & E1 & E2).
    congruence.
  - intros Hdate Hit.
    unfold ViewTasks.SELECT_currentLabs in Hit. simpl in Hit.
    apply in_map_iff in Hit. destruct Hit as [r [<- Hr]].
    unfold select_where in Hr. apply filter_In in Hr.
    destruct Hr as [Hr Hsel]. unfold delete_where in Hr.
    apply filter_In in Hr. destruct Hr as [_ Hno].
    apply negb_true_iff in Hno.
    Invariant.split_bools.
    unfold ViewTasks.task_hit, ViewTasks.either_payload in Hno.
    simpl in Hno. rewrite H0 in Hno. simpl in Hno.
    destruct (t_lab_type r), (t_lab_subtype r); try discriminate.
    simpl in Hno. rewrite !String.eqb_refl in Hno. simpl in Hno.
    destruct (t_date_and_time r) as [d|] eqn:Ed; simpl in Hno.
    + rewrite String.eqb_refl in Hno. discriminate Hno.
    + apply Hdate. simpl. exact Ed.
Qed.

Module Edit.


End Edit.


Module Sent.

(** What a [markTaskAsSent] that reported success did. *)
Lemma markTaskAsSent_success_inv ty i fs s s' ui :
  run (PendingTasks.markTaskAsSent ty i) fs s = (s', ui) ->
  In (Alert "Success" "Task marked as sent.") ui ->
  exists q t',
    PendingTasks.sent_query ty i = Some q
    /\ q (cur s) = Some t'
    /\ s' = {| cur := t'; saved := saved s |}.
Proof.
  intros H Hin. unfold run in H.
  destruct (PendingTasks.markTaskAsSent ty i _) as [r0 w] eqn:Hh.
  injection H as <- <-.
  unfold PendingTasks.markTaskAsSent in Hh.
  apply try_catch_inv in Hh.
  destruct Hh as [(a & w1 & Hb & Hr) | (w1 & Hb & Hr)].
  - inversion Hr; subst; clear Hr.
    destruct (PendingTasks.sent_query ty i) as [q|] eqn:Hq;
      [|discriminate Hb].
    apply bind_inv_Ok in Hb. destruct Hb as (u & w2 & Hrun & Hb).
    apply runAsync_inv_Ok in Hrun. destruct Hrun as (_ & s2 & Hq2 & ->).
    apply dml_inv in Hq2. destruct Hq2 as (t2 & Ht2 & ->).
    apply bind_inv_Ok in Hb. destruct Hb as (u2 & w3 & Hal & Hb).
    apply emit_inv in Hal. destruct Hal as [_ ->].
    match type of Hb with
    | PendingTasks.fetchPendingTasks ?w0 = _ =>
        pose proof (Work.fetchPendingTasks_store w0) as Hst;
        rewrite Hb in Hst
    end.
    simpl in Hst. rewrite Hst. eauto.
  - exfalso.
    assert (Hui : ui w1 = []).
    { destruct (PendingTasks.sent_query ty i) as [q|];
        [|inversion Hb; reflexivity].
      apply bind_inv_Throw in Hb.
      destruct Hb as [Hb | (u & w2 & Hrun & Hb)].
      - apply db_call_inv_Throw in Hb. subst. reflexivity.
      - apply runAsync_inv_Ok in Hrun. destruct Hrun as (_ & s2 & _ & ->).
        apply bind_inv_Throw in Hb.
        destruct Hb as [Hb | (u2 & w3 & Hal & Hb)].
        + apply emit_inv in Hb. destruct Hb; discriminate.
        + apply emit_inv in Hal. destruct Hal as [_ ->].
          match type of Hb with
          | PendingTasks.fetchPendingTasks ?w0 = _ =>
              pose proof (Work.fetchPendingTasks_Ok w0) as Hl;
              rewrite Hb in Hl
          end.
          discriminate Hl. }
    symmetry in Hr. apply emit_inv in Hr. destruct Hr as [_ ->].
    simpl in Hin. rewrite Hui in Hin. simpl in Hin.
    destruct Hin as [Hin|[]]. discriminate Hin.
Qed.

Lemma join_after_sent (hit : TaskRow -> bool) (cond : TaskRow -> bool)
    rows ps :
  (forall r, cond (task_set_task_status "sent" r) = false) ->
  PendingTasks.join_patients t_registrationNumber
    (fun r => cond r)
    (update_where hit (task_set_task_status "sent") rows) ps
  = filter (fun x => negb (hit (PendingTasks.row x)))
      (PendingTasks.join_patients t_registrationNumber
         (fun r => cond r) rows ps).
Proof.
  intros Hsent. unfold PendingTasks.join_patients, update_where.
  induction rows as [|r rows IH]; simpl; auto.
  rewrite filter_app, <- IH. f_equal.
  destruct (hit r) eqn:Eh.
  - rewrite Hsent. destruct (cond r); simpl; auto.
    induction (select_where _ ps) as [|q qs IHq]; simpl; auto.
    rewrite Eh. simpl. exact IHq.
  - destruct (cond r); simpl; auto.
    induction (select_where _ ps) as [|q qs IHq]; simpl; auto.
    rewrite Eh. simpl. f_equal. exact IHq.
Qed.

End Sent.

(** X8.  Marking a lab order as sent takes it, and nothing else, off the
    pending list.  Whenever [markTaskAsSent] reports success for a lab
    identifier, the pending lab list afterwards is the list before without
    the entries the identifier matches, the pending consultation lists are
    as before, and in [tasks] only the status of matched rows changed. *)
Theorem sent_lab_leaves_the_pending_list i fs s s' ui :
  run (PendingTasks.markTaskAsSent "Lab" i) fs s = (s', ui) ->
  In (Alert "Success" "Task marked as sent.") ui ->
  PendingTasks.pending_labs (cur s')
  = filter (fun x => negb (PendingTasks.lab_hit i (PendingTasks.row x)))
      (PendingTasks.pending_labs (cur s))
  /\ PendingTasks.pending_consultations (cur s')
     = PendingTasks.pending_consultations (cur s)
  /\ PendingTasks.pending_oldconsultations (cur s')
     = PendingTasks.pending_oldconsultations (cur s)
  /\ Forall2
       (fun r r' =>
          r' = r
          \/ (PendingTasks.lab_hit i r = true
              /\ r' = task_set_task_status "sent" r))
       (tasks (cur s)) (tasks (cur s')).
Proof.
  intros H Hin.
  destruct (Sent.markTaskAsSent_success_inv _ _ _ _ _ _ H Hin)
    as (q & t' & Hq & Ht' & ->).
  unfold PendingTasks.sent_query in Hq. simpl in Hq. injection Hq as <-.
  injection Ht' as <-. simpl.
  split; [|split; [reflexivity|split; [reflexivity|]]].
  - unfold PendingTasks.pending_labs. simpl.
    apply (Sent.join_after_sent (PendingTasks.lab_hit i)
             (fun r => not_null (t_lab_type r) && not_null (t_lab_subtype r)
                       && PendingTasks.unsent (t_task_status r))).
    intros r. simpl. apply andb_false_r.
  - clear H. unfold update_where.
    induction (tasks (cur s)) as [|r rows IH]; simpl; constructor; auto.
    destruct (PendingTasks.lab_hit i r); auto.
Qed.

(** X9.  Reading never writes.  Under any schedule, the five functions that only
    query the handle leave the connection as it was. *)
Theorem reads_leave_the_store_alone w :
  (forall key, store (snd (ViewTasks.fetchTasks key w)) = store w)
  /\ store (snd (PendingTasks.fetchPendingTasks w)) = store w
  /\ (forall v, store (snd (ReviewPatients.fetchPatients v w)) = store w)
  /\ (forall key,
        store (snd (EditPatient.fetchPatientDetails key w)) = store w)
  /\ (forall original key,
        store (snd (EditPatient.checkRegistrationNumberExists original key w))
        = store w).
Proof.
  repeat split; intros.
  - apply Delete.fetchTasks_store.
  - apply Work.fetchPendingTasks_store.
  - apply Discharge.fetchPatients_store.
  - destruct (EditPatient.fetchPatientDetails key w) as [r w'] eqn:H.
    unfold EditPatient.fetchPatientDetails in H. repeat inv_m; reflexivity.
  - destruct (EditPatient.checkRegistrationNumberExists original key w)
      as [r w'] eqn:H.
    unfold EditPatient.checkRegistrationNumberExists in H.
    repeat inv_m; reflexivity.
Qed.

(* ================================================================= *)
(** ** What the handlers report *)

(** X10.  No silent writes.  Under any schedule, a handler other than
    [handleUpdate] that ends without a success alert has left the
    connection exactly as it was. *)
Theorem no_write_without_a_success_alert a fs s :
  (forall original patient,
     a <> App.EditPatient_handleUpdate original patient) ->
  let r := run (App.handler a) fs s in
  fst r = s \/ exists m, In (Alert "Success" m) (snd r).
Proof.
  intros Ha. cbv zeta. unfold run.
  destruct (App.handler a _) as [r w] eqn:Hh. simpl.
  destruct a; simpl in Hh;
    try (exfalso; eapply Ha; reflexivity).
  all: unfold AddPatient.handleSubmit, ReviewPatients.discharge,
         ReviewPatients.reAdmit, ReviewPatients.fetchPatients,
         AddTasks.handleAddLab, AddTasks.handleAddOldLab,
         AddTasks.handleAddImaging, AddTasks.handleAddOldImaging,
         AddTasks.handleAddConsultation, AddTasks.handleAddOldConsultation,
         AddTasks.guarded, EditTask.handleSubmit, ViewTasks.deleteItem,
         ViewTasks.fetchTasks, PendingTasks.markTaskAsSent,
         PendingTasks.deleteTask, PendingTasks.fetchPendingTasks in Hh.
  all: try match goal with
       | c : option EditTask.TaskCategory |- _ => destruct c as [[]|]
       end.
  all: repeat inv_m; simpl; try discriminate.
  all: try (left; reflexivity).
  all: right; eexists; simpl; eauto 10.
Qed.

(* ================================================================= *)
(** ** Admitting patients and ordering work *)

(** X11.  The CHECK constraints and defaults of the schema hold of every row the
    application can ever store: whatever handlers are called, with whatever
    inputs and failures, every patient has a gender and a location from
    the lists of the schema and a discharge flag of 0 or 1, every order
    has its type from the list of its kind, a status from the list of
    statuses and a timestamp, every consultation has a text, a status and
    a timestamp, and registration numbers are unique. *)
Theorem reachable_rows_satisfy_the_schema l :
  WellFormed (cur (App.exec l initial_store)).
Proof. exact (proj1 (Invariant.reachable_Good l)). Qed.

(** X12.  [handleAddLab] reports success exactly when the handle is ready, the
    registration number is not empty, the subtype is not blank, the call
    is carried out and the schema admits the lab type; it then has
    appended one row to [tasks], with a new id, the registration number as
    given, the lab type, the trimmed subtype, the current time, NULL
    imaging columns and status 'unsent', and changed nothing else.  There
    is no check for an identical earlier order. *)
Theorem handleAddLab_appends_one_row db init key ty sub now fs s :
  let r := run (AddTasks.handleAddLab db init key ty sub now) fs s in
  (In (Alert "Success" "Lab task added successfully!") (snd r) <->
   db = true /\ init = true /\ Js.falsy key = false /\ Js.blank sub = false
   /\ hd false fs = false /\ check_in LAB_TYPES ty = true)
  /\ (In (Alert "Success" "Lab task added successfully!") (snd r) ->
      fst r
      = {| cur := insert_task (cur s) (fun id =>
                    {| t_id := id; t_registrationNumber := key;
                       t_lab_type := Some ty;
                       t_lab_subtype := Some (Js.trim sub);
                       t_date_and_time := Some now;
                       t_imaging_type := None; t_imaging_subtype := None;
                       t_task_status := Some "unsent" |});
           saved := saved s |}).
Proof.
  cbv zeta. unfold run, AddTasks.handleAddLab, AddTasks.guarded.
  assert (Hno : forall (P Q : Prop) (st : Store) m,
            (P -> False) ->
            (In (Alert "Success" "Lab task added successfully!")
                [Alert "Error" m] <-> P)
            /\ (In (Alert "Success" "Lab task added successfully!")
                   [Alert "Error" m] -> Q)).
  { intros P Q st m HP. split; [split|]; simpl;
      try (intros [H|[]]; discriminate H). intros HP'. tauto. }
  destruct db; simpl; [|apply (Hno _ _ s); intuition discriminate].
  destruct init; simpl; [|apply (Hno _ _ s); intuition discriminate].
  destruct (Js.falsy key); simpl;
    [apply (Hno _ _ s); intuition discriminate|].
  destruct (Js.blank sub); simpl;
    [apply (Hno _ _ s); intuition discriminate|].
  unfold try_catch, bind, runAsync, db_call, dml, AddTasks.INSERT_task_lab.
  simpl.
  destruct fs as [|[|] fs]; simpl;
    destruct (check_in LAB_TYPES ty); simpl;
    try (apply (Hno _ _ s); intuition discriminate);
    (split; [split; [intros _; repeat split; reflexivity
                    | intros _; left; reflexivity]
            | intros _; reflexivity]).
Qed.

Module Admit.

Lemma free_select key t :
  ~ In key (map p_registrationNumber (patients t)) ->
  AddPatient.SELECT_patient_by_key key t = [].
Proof.
  intros Hfree. unfold AddPatient.SELECT_patient_by_key, select_where.
  destruct (filter _ (patients t)) as [|r rs] eqn:E; auto.
  exfalso. assert (Hin : In r (r :: rs)) by (left; reflexivity).
  rewrite <- E in Hin. apply filter_In in Hin. destruct Hin as [Hin Hk].
  apply String.eqb_eq in Hk. apply Hfree. rewrite <- Hk.
  apply in_map. exact Hin.
Qed.

Lemma free_existsb key t :
  ~ In key (map p_registrationNumber (patients t)) ->
  existsb (fun r => (p_registrationNumber r =? key)%string) (patients t)
  = false.
Proof.
  intros Hfree.
  destruct (existsb _ (patients t)) eqn:E; auto.
  exfalso. apply existsb_exists in E. destruct E as [r [Hr Hk]].
  apply String.eqb_eq in Hk. apply Hfree. rewrite <- Hk.
  apply in_map. exact Hr.
Qed.

Lemma select_after_insert key t mk :
  ~ In key (map p_registrationNumber (patients t)) ->
  p_registrationNumber (mk (seq_patients t + 1)) = key ->
  AddPatient.SELECT_patient_by_key key (insert_patient t mk)
  = [mk (seq_patients t + 1)].
Proof.
  intros Hfree Hk. pose proof (free_select _ _ Hfree) as Hnil.
  unfold AddPatient.SELECT_patient_by_key, select_where in *. simpl.
  rewrite filter_app, Hnil. simpl. rewrite Hk, String.eqb_refl. reflexivity.
Qed.

End Admit.

(** X13.  A new patient is admitted.  On a ready handle, with a form that passes
    validation, a gender and a location the schema admits, a trimmed
    registration number no patient holds, and no failure of the
    environment, [handleSubmit] reports success and appends one row to
    [patients]: the trimmed texts of the form, the parsed age and bed
    number, today as admission date and [is_discharged = 0].  The other
    tables are as before, the lookup by the trimmed number now finds the
    row, and the same form submitted again is refused as a duplicate
    without a write. *)
Theorem handleSubmit_admits_a_new_patient today f s age bed :
  AddPatient_invalid f = false ->
  Js.parseInt (AddPatient.age f) = Some age ->
  Js.parseInt (AddPatient.bedNumber f) = Some bed ->
  check_in GENDERS (AddPatient.gender f) = true ->
  check_in LOCATIONS (AddPatient.location f) = true ->
  ~ In (Js.trim (AddPatient.registrationNumber f))
       (map p_registrationNumber (patients (cur s))) ->
  let key := Js.trim (AddPatient.registrationNumber f) in
  let row :=
    {| p_id := seq_patients (cur s) + 1;
       p_patientName := Js.trim (AddPatient.patientName f);
       p_age := Some age;
       p_gender := AddPatient.gender f;
       p_registrationNumber := key;
       p_location := Some (AddPatient.location f);
       p_bedNumber := Some bed;
       p_chiefComplaints := Some (Js.trim (AddPatient.chiefComplaints f));
       p_provisionalDiagnosis :=
         Some (Js.trim (AddPatient.provisionalDiagnosis f));
       p_miscNotes := Some (Js.trim (AddPatient.miscNotes f));
       p_reg_date := Some today;
       p_contact := Js.trim (AddPatient.number f);
       p_is_discharged := 0 |} in
  let r := run (AddPatient.handleSubmit true today f) [] s in
  snd r = [Alert "Success" "Patient added successfully!"]
  /\ patients (cur (fst r)) = (patients (cur s) ++ [row])%list
  /\ tasks (cur (fst r)) = tasks (cur s)
  /\ oldlabs (cur (fst r)) = oldlabs (cur s)
  /\ consultations (cur (fst r)) = consultations (cur s)
  /\ oldconsultations (cur (fst r)) = oldconsultations (cur s)
  /\ In row (AddPatient.SELECT_patient_by_key key (cur (fst r)))
  /\ run (AddPatient.handleSubmit true today f) [] (fst r)
     = (fst r,
        [Alert "Error"
           ("Patient with registration number '"
            ++ AddPatient.registrationNumber f ++ "' already exists.")]).
Proof.
  intros Hv Hage Hbed Hg Hl Hfree. cbv zeta.
  destruct (Keys.invalid_tests f Hv) as (V1 & V2 & V3).
  unfold run, AddPatient.handleSubmit. simpl. rewrite V1, V2, V3.
  unfold try_catch, bind, getFirstAsync, runAsync, db_call, dml. simpl.
  rewrite (Admit.free_select _ _ Hfree). simpl.
  unfold AddPatient.INSERT_patient.
  rewrite Hg, Hl, (Admit.free_existsb _ _ Hfree), Hage, Hbed. simpl.
  rewrite !(Admit.select_after_insert _ _ _ Hfree) by reflexivity.
  simpl. repeat split; auto.
Qed.

(* ================================================================= *)
(** ** What the lists show *)

Module Lists.

Lemma partition_length {R} (p q : R -> bool) rows :
  Forall (fun r => xorb (p r) (q r) = true) rows ->
  (List.length (filter p rows) + List.length (filter q rows))%nat
  = List.length rows.
Proof.
  induction 1 as [|r rows Hr _ IH]; simpl; auto.
  destruct (p r), (q r); simpl in *; try discriminate; lia.
Qed.

Lemma filter3_length {R} (k a b : R -> bool) rows :
  List.length (filter (fun r => k r && a r && b r) rows)
  = List.length (filter (fun r => a r && b r) (filter k rows)).
Proof.
  induction rows as [|r rows IH]; simpl; auto.
  destruct (k r); simpl; auto. destruct (a r && b r); simpl; auto.
Qed.

Lemma Forall_filter {R} (Q : R -> Prop) p rows :
  Forall Q rows -> Forall Q (filter p rows).
Proof.
  intros H. rewrite Forall_forall in *. intros r Hr.
  apply filter_In in Hr. apply H, Hr.
Qed.

(** What the loop of [locationCounts] has under a key after it ran. *)
Lemma counts_fold rows : forall counts k,
  fold_left (fun c r => ReviewPatients.bump c (p_location r)) rows counts k
  = (counts k
     + List.length (filter (fun r => sql_eq (p_location r) k) rows))%nat.
Proof.
  induction rows as [|r rows IH]; simpl; intros counts k; [lia|].
  rewrite IH. unfold ReviewPatients.bump.
  destruct (sql_eq (p_location r) k); simpl; lia.
Qed.

Lemma located_once (loc : option string) :
  not_null loc = true -> check_in_null LOCATIONS loc = true ->
  fold_right (fun k n => ((if sql_eq loc k then 1 else 0) + n)%nat) 0%nat
    LOCATIONS = 1%nat.
Proof.
  destruct loc as [x|]; simpl; [|discriminate]. intros _.
  unfold check_in, Js.array_includes, LOCATIONS. simpl.
  rewrite !orb_false_r, !orb_true_iff, !String.eqb_eq.
  intros [H|[H|[H|[H|[H|H]]]]]; subst x; reflexivity.
Qed.

Lemma sum_counts rows :
  Forall (fun r => not_null (p_location r) = true
                   /\ check_in_null LOCATIONS (p_location r) = true) rows ->
  fold_right (fun k n => (ReviewPatients.locationCounts rows k + n)%nat)
    0%nat LOCATIONS
  = List.length rows.
Proof.
  unfold ReviewPatients.locationCounts. intros H.
  assert (E : forall ks,
    fold_right
      (fun k n =>
         (fold_left (fun c r => ReviewPatients.bump c (p_location r)) rows
            (fun _ => 0%nat) k + n)%nat) 0%nat ks
    = fold_right
        (fun k n =>
           (List.length (filter (fun r => sql_eq (p_location r) k) rows)
            + n)%nat) 0%nat ks).
  { induction ks as [|k ks IHk]; simpl; auto.
    rewrite counts_fold, IHk. reflexivity. }
  rewrite E. clear E.
  induction H as [|r rows [Hn Hc] _ IH]; [reflexivity|].
  pose proof (located_once _ Hn Hc) as Hone.
  unfold LOCATIONS in *. simpl in *.
  destruct (sql_eq (p_location r) "Emergency"),
           (sql_eq (p_location r) "ICU"),
           (sql_eq (p_location r) "HDU"),
           (sql_eq (p_location r) "Ward Male"),
           (sql_eq (p_location r) "Ward Female"),
           (sql_eq (p_location r) "Other");
    simpl in *; try discriminate Hone; lia.
Qed.

End Lists.

(** X14.  Every patient is on exactly one of the two review screens.  In every
    state the application can reach, the rows [fetchPatients] selects for
    the screen of current patients and for the screen of discharged
    patients together are as many as [patients] holds, and no row is
    selected for both. *)
Theorem every_patient_is_on_one_review_screen l :
  let t := cur (App.exec l initial_store) in
  (List.length (ReviewPatients.SELECT_by_discharged 0 t)
   + List.length (ReviewPatients.SELECT_by_discharged 1 t))%nat
  = List.length (patients t)
  /\ (forall r, In r (ReviewPatients.SELECT_by_discharged 0 t) ->
        ~ In r (ReviewPatients.SELECT_by_discharged 1 t)).
Proof.
  cbv zeta. destruct (Invariant.reachable_Good l) as [[_ Hp _ _ _ _] _].
  unfold ReviewPatients.SELECT_by_discharged, select_where. split.
  - apply Lists.partition_length.
    eapply Forall_impl; [|exact Hp]. intros r Hr. simpl in Hr.
    unfold patient_wf in Hr. Invariant.split_bools.
    destruct (p_is_discharged r =? 0) eqn:E0,
             (p_is_discharged r =? 1) eqn:E1;
      simpl in *; try discriminate; auto.
    apply Z.eqb_eq in E0, E1. lia.
  - intros r H0 H1. apply filter_In in H0, H1.
    destruct H0 as [_ H0]. destruct H1 as [_ H1].
    apply Z.eqb_eq in H0, H1. lia.
Qed.

(** X15.  Every order of a patient is on exactly one of the two lists of its
    table.  In every state the application can reach and for every
    registration number, Current Labs and Current Imaging together list as
    many items as [tasks] holds rows of that number, and Old Labs and Old
    Imaging as many as [oldlabs] holds. *)
Theorem every_order_is_on_one_list l key :
  let t := cur (App.exec l initial_store) in
  (List.length (ViewTasks.SELECT_currentLabs key t)
   + List.length (ViewTasks.SELECT_currentImaging key t))%nat
  = List.length
      (filter (fun r => (t_registrationNumber r =? key)%string) (tasks t))
  /\ (List.length (ViewTasks.SELECT_oldLabs key t)
      + List.length (ViewTasks.SELECT_oldImaging key t))%nat
     = List.length
         (filter (fun r => (o_registrationNumber r =? key)%string)
            (oldlabs t)).
Proof.
  cbv zeta. destruct (Invariant.reachable_Good l) as [[_ _ Ht Ho _ _] _].
  unfold ViewTasks.SELECT_currentLabs, ViewTasks.SELECT_currentImaging,
    ViewTasks.SELECT_oldLabs, ViewTasks.SELECT_oldImaging, select_where.
  rewrite !length_map.
  rewrite (Lists.filter3_length
             (fun r => (t_registrationNumber r =? key)%string)
             (fun r => not_null (t_lab_type r))
             (fun r => not_null (t_lab_subtype r))).
  rewrite (Lists.filter3_length
             (fun r => (t_registrationNumber r =? key)%string)
             (fun r => not_null (t_imaging_type r))
             (fun r => not_null (t_imaging_subtype r))).
  rewrite (Lists.filter3_length
             (fun r => (o_registrationNumber r =? key)%string)
             (fun r => not_null (o_lab_type r))
             (fun r => not_null (o_lab_subtype r))).
  rewrite (Lists.filter3_length
             (fun r => (o_registrationNumber r =? key)%string)
             (fun r => not_null (o_imaging_type r))
             (fun r => not_null (o_imaging_subtype r))).
  split.
  - apply Lists.partition_length. apply Lists.Forall_filter.
    eapply Forall_impl; [|exact Ht]. intros r Hr. simpl in Hr.
    unfold task_wf in Hr. Invariant.split_bools.
    destruct (t_lab_type r), (t_lab_subtype r), (t_imaging_type r),
             (t_imaging_subtype r); simpl in *; try discriminate; auto.
  - apply Lists.partition_length. apply Lists.Forall_filter.
    eapply Forall_impl; [|exact Ho]. intros r Hr. simpl in Hr.
    unfold oldlab_wf in Hr. Invariant.split_bools.
    destruct (o_lab_type r), (o_lab_subtype r), (o_imaging_type r),
             (o_imaging_subtype r); simpl in *; try discriminate; auto.
Qed.

(** X16.  The census adds up.  In every state the application can reach, the six
    counts [locationCounts] shows for the current patients sum to the
    number of current patients: every stored location is one of the six
    names. *)
Theorem location_counts_add_up l :
  let fetched :=
    ReviewPatients.SELECT_by_discharged 0 (cur (App.exec l initial_store)) in
  fold_right (fun k n => (ReviewPatients.locationCounts fetched k + n)%nat)
    0%nat LOCATIONS
  = List.length fetched.
Proof.
  cbv zeta. destruct (Invariant.reachable_Good l) as [[_ Hp _ _ _ _] _].
  apply Lists.sum_counts.
  unfold ReviewPatients.SELECT_by_discharged, select_where.
  apply Lists.Forall_filter.
  eapply Forall_impl; [|exact Hp]. intros r Hr. simpl in Hr.
  unfold patient_wf in Hr. Invariant.split_bools. auto.
Qed.

Module Search.

Lemma startsWith_spec p : forall s,
  Js.startsWith p s = true <-> exists b, s = (p ++ b)%string.
Proof.
  induction p as [|c p IH]; intros s; simpl.
  - split; eauto.
  - destruct s as [|d s]; simpl.
    + split; [discriminate|]. intros [b H]. discriminate H.
    + rewrite andb_true_iff, Ascii.eqb_eq, IH. split.
      * intros [-> [b ->]]. eauto.
      * intros [b H]. injection H as -> ->. eauto.
Qed.

(** [includes] holds exactly of the strings that contain the query. *)
Lemma includes_spec q : forall s,
  Js.includes s q = true <-> exists a b, s = (a ++ q ++ b)%string.
Proof.
  induction s as [|c s IH].
  - cbn [Js.includes]. rewrite orb_false_r, startsWith_spec. split.
    + intros [b H]. exists "", b. exact H.
    + intros [a [b H]]. destruct a; simpl in H; [eauto|discriminate H].
  - cbn [Js.includes]. rewrite orb_true_iff, startsWith_spec, IH. split.
    + intros [[b H] | [a [b H]]].
      * exists "", b. exact H.
      * exists (String c a), b. simpl. rewrite H. reflexivity.
    + intros [a [b H]]. destruct a as [|d a]; simpl in H.
      * left. eauto.
      * right. injection H as _ ->. eauto.
Qed.

Lemma includes_refl s : Js.includes s s = true.
Proof.
  apply includes_spec. exists "", "". simpl.
  induction s; simpl; congruence.
Qed.

End Search.

(** X17.  What a search shows.  A blank query shows every fetched patient.  Any
    other query shows, in their order, exactly the fetched patients whose
    name or registration number contains the query, upper and lower case
    taken as equal; so a patient is always found by the full name or the
    full registration number. *)
Theorem handleSearch_shows_the_matching_patients q fetched :
  (Js.blank q = true -> ReviewPatients.handleSearch q fetched = fetched)
  /\ (Js.blank q = false ->
      forall r,
        In r (ReviewPatients.handleSearch q fetched) <->
        In r fetched
        /\ ((exists a b,
               Js.toLowerCase (p_patientName r)
               = (a ++ Js.toLowerCase q ++ b)%string)
            \/ (exists a b,
                  Js.toLowerCase (p_registrationNumber r)
                  = (a ++ Js.toLowerCase q ++ b)%string)))
  /\ (forall r,
        In r fetched ->
        Js.toLowerCase q = Js.toLowerCase (p_patientName r)
        \/ Js.toLowerCase q = Js.toLowerCase (p_registrationNumber r) ->
        In r (ReviewPatients.handleSearch q fetched)).
Proof.
  unfold ReviewPatients.handleSearch. split; [|split].
  - intros ->. reflexivity.
  - intros -> r. rewrite filter_In. unfold ReviewPatients.matches.
    rewrite orb_true_iff, !Search.includes_spec. reflexivity.
  - intros r Hr Hq. destruct (Js.blank q); auto.
    apply filter_In. split; auto. unfold ReviewPatients.matches.
    destruct Hq as [-> | ->]; rewrite Search.includes_refl;
      auto using orb_true_r.
Qed.

Module EditParams.

Lemma lab_category table ty :
  check_in LAB_TYPES ty = true ->
  EditTask.determineCategory table ty
  = if (table =? "tasks")%string then Some EditTask.currentLab
    else if (table =? "oldlabs")%string then Some EditTask.oldLab
    else None.
Proof.
  unfold check_in, Js.array_includes, LAB_TYPES. simpl.
  rewrite !orb_false_r, !orb_true_iff, !String.eqb_eq.
  intros [ -> | [ -> | -> ] ]; unfold EditTask.determineCategory;
    destruct (table =? "tasks")%string, (table =? "oldlabs")%string;
    reflexivity.
Qed.

Lemma imaging_category table ty :
  check_in IMAGING_TYPES ty = true ->
  EditTask.determineCategory table ty
  = if (table =? "tasks")%string then Some EditTask.currentImaging
    else if (table =? "oldlabs")%string then Some EditTask.oldImaging
    else None.
Proof.
  unfold check_in, Js.array_includes, IMAGING_TYPES. simpl.
  rewrite !orb_false_r, !orb_true_iff, !String.eqb_eq.
  intros [ -> | [ -> | [ -> | -> ] ] ]; unfold EditTask.determineCategory;
    destruct (table =? "tasks")%string, (table =? "oldlabs")%string;
    reflexivity.
Qed.

End EditParams.

(** X18.  The edit screen recognises every item the application lists.  In every
    state the application can reach, for an item of one of the four lists
    of orders of [fetchTasks], [handleEdit] with the table of that list
    yields parameters, and the category the edit screen derives from them
    is the one of the list: it never falls into "Invalid task
    parameters". *)
Theorem listed_items_have_their_category l key it :
  let t := cur (App.exec l initial_store) in
  let category table :=
    match ViewTasks.handleEdit key table it with
    | Some q => fst (fst (EditTask.initial_state q))
    | None => None
    end in
  (In it (ViewTasks.SELECT_currentLabs key t) ->
   category "tasks" = Some EditTask.currentLab)
  /\ (In it (ViewTasks.SELECT_currentImaging key t) ->
      category "tasks" = Some EditTask.currentImaging)
  /\ (In it (ViewTasks.SELECT_oldLabs key t) ->
      category "oldlabs" = Some EditTask.oldLab)
  /\ (In it (ViewTasks.SELECT_oldImaging key t) ->
      category "oldlabs" = Some EditTask.oldImaging).
Proof.
  cbv zeta. destruct (Invariant.reachable_Good l) as [[_ _ Ht Ho _ _] _].
  rewrite Forall_forall in Ht, Ho.
  split; [|split; [|split]].
  all: intros Hit; apply in_map_iff in Hit; destruct Hit as [r [<- Hr]].
  all: unfold select_where in Hr; apply filter_In in Hr.
  all: destruct Hr as [Hr Hsel].
  all: try (pose proof (Ht _ Hr) as W; unfold task_wf in W).
  all: try (pose proof (Ho _ Hr) as W; unfold oldlab_wf in W).
  all: Invariant.split_bools.
  all: unfold ViewTasks.handleEdit, EditTask.initial_state; simpl.
  - destruct (t_lab_type r) as [ty|] eqn:Ety; [|discriminate].
    destruct (t_date_and_time r); [|discriminate]. simpl.
    rewrite (EditParams.lab_category "tasks" ty) by assumption. reflexivity.
  - destruct (t_imaging_type r) as [ty|] eqn:Ety; [|discriminate].
    destruct (t_date_and_time r); [|discriminate]. simpl.
    rewrite (EditParams.imaging_category "tasks" ty) by assumption.
    reflexivity.
  - destruct (o_lab_type r) as [ty|] eqn:Ety; [|discriminate].
    destruct (o_date_and_time r); [|discriminate]. simpl.
    rewrite (EditParams.lab_category "oldlabs" ty) by assumption.
    reflexivity.
  - destruct (o_imaging_type r) as [ty|] eqn:Ety; [|discriminate].
    destruct (o_date_and_time r); [|discriminate]. simpl.
    rewrite (EditParams.imaging_category "oldlabs" ty) by assumption.
    reflexivity.
Qed.

(* ================================================================= *)
(** ** Keys, names of tables and white space *)

Module Trim.

Lemma trimStart_head s :
  Js.trimStart s = ""
  \/ exists c t, Js.trimStart s = String c t /\ Js.is_ws c = false.
Proof.
  induction s as [|c s IH]; simpl; auto.
  destruct (Js.is_ws c) eqn:E; auto. right. eauto.
Qed.

Lemma trimEnd_idem s : Js.trimEnd (Js.trimEnd s) = Js.trimEnd s.
Proof.
  induction s as [|c s IH]; simpl; auto.
  destruct (Js.trimEnd s) as [|d t] eqn:Et.
  - destruct (Js.is_ws c) eqn:Ec; simpl; auto. rewrite Ec. reflexivity.
  - cbn [Js.trimEnd]. cbn [Js.trimEnd] in IH. rewrite IH. reflexivity.
Qed.

Lemma trimEnd_keeps_head c t :
  Js.is_ws c = false ->
  exists t', Js.trimEnd (String c t) = String c t'.
Proof.
  intros Hc. simpl. destruct (Js.trimEnd t); [rewrite Hc|]; eauto.
Qed.

Lemma trim_idem s : Js.trim (Js.trim s) = Js.trim s.
Proof.
  unfold Js.trim.
  destruct (trimStart_head s) as [E | (c & t & E & Hc)]; rewrite E.
  - reflexivity.
  - destruct (trimEnd_keeps_head c t Hc) as [t' Et].
    rewrite Et. cbn [Js.trimStart]. rewrite Hc, <- Et.
    apply trimEnd_idem.
Qed.

Lemma unique_lookup {R} (key : R -> string) k rows :
  NoDup (map key rows) ->
  (List.length (filter (fun r => (key r =? k)%string) rows) <= 1)%nat.
Proof.
  induction rows as [|r rows IH]; simpl; intros Hnd; [lia|].
  inversion Hnd as [|? ? Hk Hrest]; subst. specialize (IH Hrest).
  destruct (String.eqb_spec (key r) k) as [E|E]; simpl; [|lia].
  assert (Hnone : filter (fun r => (key r =? k)%string) rows = []).
  { destruct (filter _ rows) as [|x xs] eqn:Ef; auto. exfalso.
    assert (Hx : In x (x :: xs)) by (left; reflexivity).
    rewrite <- Ef in Hx. apply filter_In in Hx. destruct Hx as [Hx Hxk].
    apply String.eqb_eq in Hxk. apply Hk. rewrite E, <- Hxk.
    apply in_map. exact Hx. }
  rewrite Hnone. simpl. lia.
Qed.

End Trim.

(** X19.  A registration number names at most one patient, and the review
    screens reach the patients that addpatient stored.  In every state the
    application can reach, the query by which the edit screen loads its
    patient selects at most one row; and for a row whose registration
    number is a trimmed text, as addpatient stores it, the number the
    review screens hand to the edit screen is that number, so the query
    selects the row. *)
Theorem the_edit_screen_loads_the_patient l :
  let t := cur (App.exec l initial_store) in
  (forall key,
     (List.length (EditPatient.SELECT_patient key t) <= 1)%nat)
  /\ (forall r x,
        In r (patients t) -> p_registrationNumber r = Js.trim x ->
        ReviewPatients.handleEditDetails (p_registrationNumber r)
        = p_registrationNumber r
        /\ In r (EditPatient.SELECT_patient
                   (ReviewPatients.handleEditDetails
                      (p_registrationNumber r)) t)).
Proof.
  cbv zeta. destruct (Invariant.reachable_Good l) as [[Hu _ _ _ _ _] _].
  split.
  - intros key. apply Trim.unique_lookup. exact Hu.
  - intros r x Hr Hk. unfold ReviewPatients.handleEditDetails.
    rewrite Hk, Trim.trim_idem. split; auto.
    unfold EditPatient.SELECT_patient, select_where. apply filter_In.
    split; auto. rewrite Hk. apply String.eqb_refl.
Qed.

(** X20.  A name the switch does not know is refused before the handle is
    touched.  [deleteItem] with a table other than the four tables, and
    [markTaskAsSent] and [deleteTask] with a task type other than the four
    types, show their error alert and make no call on the handle. *)
Theorem unknown_names_never_reach_the_store key table ty it i w :
  (table <> "tasks" -> table <> "oldlabs" -> table <> "consultations" ->
   table <> "oldconsultations" ->
   ViewTasks.deleteItem key table it w
   = (Ok tt, {| store := store w; faults := faults w;
                ui := (ui w ++ [Alert "Error" "Failed to delete the item."])
                        %list |}))
  /\ (ty <> "Lab" -> ty <> "Imaging" -> ty <> "Consultation" ->
      ty <> "OldConsultation" ->
      PendingTasks.markTaskAsSent ty i w
      = (Ok tt, {| store := store w; faults := faults w;
                   ui := (ui w ++ [Alert "Error"
                                     ("Failed to mark " ++ ty ++ " as sent.")])
                           %list |})
      /\ PendingTasks.deleteTask ty i w
         = (Ok tt, {| store := store w; faults := faults w;
                      ui := (ui w ++ [Alert "Error"
                                        ("Failed to delete " ++ ty ++ ".")])
                              %list |})).
Proof.
  split.
  - intros H1 H2 H3 H4. apply String.eqb_neq in H1, H2, H3, H4.
    unfold ViewTasks.deleteItem, ViewTasks.delete_query.
    rewrite H1, H2, H3, H4. destruct w; reflexivity.
  - intros H1 H2 H3 H4. apply String.eqb_neq in H1, H2, H3, H4.
    unfold PendingTasks.markTaskAsSent, PendingTasks.deleteTask,
      PendingTasks.sent_query, PendingTasks.delete_query.
    rewrite H1, H2, H3, H4. destruct w; split; reflexivity.
Qed.

Module Pending.

(** What a [deleteTask] that reported success did. *)
Lemma deleteTask_success_inv ty i fs s s' ui :
  run (PendingTasks.deleteTask ty i) fs s = (s', ui) ->
  In (Alert "Success" "Task deleted successfully.") ui ->
  exists q t',
    PendingTasks.delete_query ty i = Some q
    /\ q (cur s) = Some t'
    /\ s' = {| cur := t'; saved := saved s |}.
Proof.
  intros H Hin. unfold run in H.
  destruct (PendingTasks.deleteTask ty i _) as [r0 w] eqn:Hh.
  injection H as <- <-.
  unfold PendingTasks.deleteTask in Hh.
  apply try_catch_inv in Hh.
  destruct Hh as [(a & w1 & Hb & Hr) | (w1 & Hb & Hr)].
  - inversion Hr; subst; clear Hr.
    destruct (PendingTasks.delete_query ty i) as [q|] eqn:Hq;
      [|discriminate Hb].
    apply bind_inv_Ok in Hb. destruct Hb as (u & w2 & Hrun & Hb).
    apply runAsync_inv_Ok in Hrun. destruct Hrun as (_ & s2 & Hq2 & ->).
    apply dml_inv in Hq2. destruct Hq2 as (t2 & Ht2 & ->).
    apply bind_inv_Ok in Hb. destruct Hb as (u2 & w3 & Hal & Hb).
    apply emit_inv in Hal. destruct Hal as [_ ->].
    match type of Hb with
    | PendingTasks.fetchPendingTasks ?w0 = _ =>
        pose proof (Work.fetchPendingTasks_store w0) as Hst;
        rewrite Hb in Hst
    end.
    simpl in Hst. rewrite Hst. eauto.
  - exfalso.
    assert (Hui : ui w1 = []).
    { destruct (PendingTasks.delete_query ty i) as [q|];
        [|inversion Hb; reflexivity].
      apply bind_inv_Throw in Hb.
      destruct Hb as [Hb | (u & w2 & Hrun & Hb)].
      - apply db_call_inv_Throw in Hb. subst. reflexivity.
      - apply runAsync_inv_Ok in Hrun. destruct Hrun as (_ & s2 & _ & ->).
        apply bind_inv_Throw in Hb.
        destruct Hb as [Hb | (u2 & w3 & Hal & Hb)].
        + apply emit_inv in Hb. destruct Hb; discriminate.
        + apply emit_inv in Hal. destruct Hal as [_ ->].
          match type of Hb with
          | PendingTasks.fetchPendingTasks ?w0 = _ =>
              pose proof (Work.fetchPendingTasks_Ok w0) as Hl;
              rewrite Hb in Hl
          end.
          discriminate Hl. }
    symmetry in Hr. apply emit_inv in Hr. destruct Hr as [_ ->].
    simpl in Hin. rewrite Hui in Hin. simpl in Hin.
    destruct Hin as [Hin|[]]. discriminate Hin.
Qed.

End Pending.

(** X21.  The delete of the pending screen looks at one payload only.  Whenever
    [deleteTask] reports success for a lab identifier, every row of
    [tasks] with NULL lab columns is still there, whatever its imaging
    columns hold, no row the identifier matches is left, no row was
    added, and the other tables are as before. *)
Theorem deleteTask_spares_the_other_kind i fs s s' ui :
  run (PendingTasks.deleteTask "Lab" i) fs s = (s', ui) ->
  In (Alert "Success" "Task deleted successfully.") ui ->
  (forall r, In r (tasks (cur s)) ->
     t_lab_type r = None \/ t_lab_subtype r = None ->
     In r (tasks (cur s')))
  /\ (forall r, PendingTasks.lab_hit i r = true -> ~ In r (tasks (cur s')))
  /\ incl (tasks (cur s')) (tasks (cur s))
  /\ patients (cur s') = patients (cur s)
  /\ oldlabs (cur s') = oldlabs (cur s)
  /\ consultations (cur s') = consultations (cur s)
  /\ oldconsultations (cur s') = oldconsultations (cur s).
Proof.
  intros H Hin.
  destruct (Pending.deleteTask_success_inv _ _ _ _ _ _ H Hin)
    as (q & t' & Hq & Ht' & ->).
  unfold PendingTasks.delete_query in Hq. simpl in Hq. injection Hq as <-.
  injection Ht' as <-. simpl. repeat split; auto.
  - intros r Hr Hnull. apply Work.In_delete_where; auto.
    unfold PendingTasks.lab_hit.
    destruct Hnull as [E|E]; rewrite E;
      destruct (PendingTasks.lab_type i), (PendingTasks.lab_subtype i);
      simpl; rewrite ?andb_false_r; reflexivity.
  - intros r Hhit. apply Delete.not_In_delete_where. exact Hhit.
  - intros r Hr. unfold delete_where in Hr. apply filter_In in Hr. tauto.
Qed.

(* ================================================================= *)
(** ** The further theorems on the sample data *)

(** An edit of Jane with no gender chosen is refused by the CHECK of the
    schema and the ward is as it was. *)
Lemma handleUpdate_all_or_nothing_witness :
  fst (run (EditPatient.handleUpdate "R100"
              (Some Samples.jane_without_gender)) [] Samples.ward)
  = Samples.ward.
Proof.
  destruct (handleUpdate_all_or_nothing Samples.ward "R100"
              (Some Samples.jane_without_gender))
    as (_ & [H | H]); [reflexivity | | exact H].
  vm_compute in H. destruct H as [H | []]. discriminate H.
Defined.


Lemma rename_orphans_consultations_witness :
  ~ In "R100"
      (map p_registrationNumber
         (patients
            (cur (fst (run (EditPatient.handleUpdate "R100"
                              (Some Samples.jane_as_R200)) []
                         Samples.ward)))))
  /\ consultations
       (cur (fst (run (EditPatient.handleUpdate "R100"
                         (Some Samples.jane_as_R200)) [] Samples.ward)))
     = consultations (cur Samples.ward).
Proof.
  destruct (rename_orphans_consultations Samples.ward "R100"
              Samples.jane_as_R200 []
              (fst (run (EditPatient.handleUpdate "R100"
                           (Some Samples.jane_as_R200)) [] Samples.ward))
              [SetError None;
               Alert "Success" "Patient details updated successfully."])
    as (Hc & _ & Hno & _).
  - vm_compute. reflexivity.
  - right. left. reflexivity.
  - discriminate.
  - split; assumption.
Defined.

Lemma rename_keeps_the_task_lists_witness :
  ViewTasks.SELECT_currentLabs "R200"
    (cur (fst (run (EditPatient.handleUpdate "R100"
                      (Some Samples.jane_as_R200)) [] Samples.ward)))
  = ViewTasks.SELECT_currentLabs "R100" (cur Samples.ward).
Proof.
  destruct (rename_keeps_the_task_lists Samples.ward "R100"
              Samples.jane_as_R200 []
              (fst (run (EditPatient.handleUpdate "R100"
                           (Some Samples.jane_as_R200)) [] Samples.ward))
              [SetError None;
               Alert "Success" "Patient details updated successfully."])
    as (H & _).
  - vm_compute. reflexivity.
  - right. left. reflexivity.
  - vm_compute. intros [H | [H | []]]; discriminate H.
  - vm_compute. intros [].
  - exact H.
Defined.

Lemma listed_item_matches_rows_of_its_own_kind_witness :
  t_imaging_type Samples.chest_ct_row
  = ViewTasks.type Samples.chest_ct
  /\ t_lab_type Samples.chest_ct_row = None.
Proof.
  destruct (listed_item_matches_rows_of_its_own_kind Samples.ward_actions
              "R100" Samples.chest_ct) as (_ & H & _).
  destruct (H ltac:(vm_compute; left; reflexivity) Samples.chest_ct_row
              ltac:(vm_compute; right; left; reflexivity) eq_refl)
    as (H1 & _ & H2 & _).
  split; assumption.
Defined.

Lemma deleteItem_frame_witness :
  patients
    (cur (fst (run (ViewTasks.deleteItem "R100" "tasks" Samples.chest_ct)
                 [] Samples.ward)))
  = patients (cur Samples.ward).
Proof.
  destruct (deleteItem_frame "R100" Samples.chest_ct [] Samples.ward
              (fst (run (ViewTasks.deleteItem "R100" "tasks"
                           Samples.chest_ct) [] Samples.ward))
              [Alert "Success" "Item deleted successfully."; SetError None])
    as (_ & _ & H & _).
  - vm_compute. reflexivity.
  - left. reflexivity.
  - exact H.
Defined.


Lemma sent_lab_leaves_the_pending_list_witness :
  PendingTasks.pending_labs
    (cur (fst (run (PendingTasks.markTaskAsSent "Lab"
                      (PendingTasks.lab_identifier Samples.cbc_row))
                 [] Samples.ward)))
  = filter
      (fun x => negb (PendingTasks.lab_hit
                        (PendingTasks.lab_identifier Samples.cbc_row)
                        (PendingTasks.row x)))
      (PendingTasks.pending_labs (cur Samples.ward)).
Proof.
  destruct (sent_lab_leaves_the_pending_list
              (PendingTasks.lab_identifier Samples.cbc_row) [] Samples.ward
              (fst (run (PendingTasks.markTaskAsSent "Lab"
                           (PendingTasks.lab_identifier Samples.cbc_row))
                      [] Samples.ward))
              [Alert "Success" "Task marked as sent."; SetError None])
    as (H & _).
  - vm_compute. reflexivity.
  - left. reflexivity.
  - exact H.
Defined.

Lemma no_write_without_a_success_alert_witness :
  fst (run (App.handler (App.ReviewPatients_discharge "R100")) [true]
         Samples.ward)
  = Samples.ward
  \/ exists m,
       In (Alert "Success" m)
          (snd (run (App.handler (App.ReviewPatients_discharge "R100"))
                  [true] Samples.ward)).
Proof.
  apply (no_write_without_a_success_alert
           (App.ReviewPatients_discharge "R100") [true] Samples.ward).
  intros original patient H. discriminate H.
Defined.

Lemma handleAddLab_appends_one_row_witness :
  ~ In (Alert "Success" "Lab task added successfully!")
       (snd (run (AddTasks.handleAddLab true true "R100" "plasma" "x"
                    Samples.t1) [] Samples.ward)).
Proof.
  intros H.
  destruct (handleAddLab_appends_one_row true true "R100" "plasma" "x"
              Samples.t1 [] Samples.ward) as ([Hiff _] & _).
  destruct (Hiff H) as (_ & _ & _ & _ & _ & Hty).
  vm_compute in Hty. discriminate Hty.
Defined.

Lemma handleSubmit_admits_a_new_patient_witness :
  snd (run (AddPatient.handleSubmit true "2024-01-02" Samples.john) []
         Samples.ward)
  = [Alert "Success" "Patient added successfully!"].
Proof.
  destruct (handleSubmit_admits_a_new_patient "2024-01-02" Samples.john
              Samples.ward 61 2) as (H & _);
    [ reflexivity | reflexivity | reflexivity | reflexivity | reflexivity
    | vm_compute; intros [H | []]; discriminate H
    | exact H ].
Defined.

Lemma every_patient_is_on_one_review_screen_witness :
  ~ In Samples.jane_row
       (ReviewPatients.SELECT_by_discharged 1 (cur Samples.ward)).
Proof.
  destruct (every_patient_is_on_one_review_screen Samples.ward_actions)
    as (_ & H).
  apply H. vm_compute. left. reflexivity.
Defined.

Lemma handleSearch_shows_the_matching_patients_witness :
  In Samples.jane_row
     (ReviewPatients.handleSearch "JANE DOE" (patients (cur Samples.ward))).
Proof.
  destruct (handleSearch_shows_the_matching_patients "JANE DOE"
              (patients (cur Samples.ward))) as (_ & _ & H).
  apply H; [vm_compute; left; reflexivity | left; reflexivity].
Defined.

Lemma listed_items_have_their_category_witness :
  match ViewTasks.handleEdit "R100" "tasks" Samples.chest_ct with
  | Some q => fst (fst (EditTask.initial_state q))
  | None => None
  end = Some EditTask.currentImaging.
Proof.
  destruct (listed_items_have_their_category Samples.ward_actions "R100"
              Samples.chest_ct) as (_ & H & _).
  apply H. vm_compute. left. reflexivity.
Defined.

Lemma the_edit_screen_loads_the_patient_witness :
  In Samples.jane_row
     (EditPatient.SELECT_patient
        (ReviewPatients.handleEditDetails
           (p_registrationNumber Samples.jane_row))
        (cur Samples.ward)).
Proof.
  destruct (the_edit_screen_loads_the_patient Samples.ward_actions)
    as (_ & H).
  destruct (H Samples.jane_row " R100 ") as (_ & H');
    [vm_compute; left; reflexivity | reflexivity | exact H'].
Defined.

Lemma unknown_names_never_reach_the_store_witness :
  ViewTasks.deleteItem "R100" "labs" Samples.chest_ct
    {| store := Samples.ward; faults := [true]; ui := [] |}
  = (Ok tt, {| store := Samples.ward; faults := [true];
               ui := [Alert "Error" "Failed to delete the item."] |}).
Proof.
  destruct (unknown_names_never_reach_the_store "R100" "labs" "Lab"
              Samples.chest_ct (PendingTasks.lab_identifier Samples.cbc_row)
              {| store := Samples.ward; faults := [true]; ui := [] |})
    as (H & _).
  apply H; discriminate.
Defined.

Lemma deleteTask_spares_the_other_kind_witness :
  In Samples.chest_ct_row
     (tasks
        (cur (fst (run (PendingTasks.deleteTask "Lab"
                          (PendingTasks.lab_identifier Samples.cbc_row))
                     [] Samples.ward)))).
Proof.
  destruct (deleteTask_spares_the_other_kind
              (PendingTasks.lab_identifier Samples.cbc_row) [] Samples.ward
              (fst (run (PendingTasks.deleteTask "Lab"
                           (PendingTasks.lab_identifier Samples.cbc_row))
                      [] Samples.ward))
              [Alert "Success" "Task deleted successfully."; SetError None])
    as (H & _).
  - vm_compute. reflexivity.
  - left. reflexivity.
  - apply H; [vm_compute; right; left; reflexivity | left; reflexivity].
Defined.
